(** * Study Program Recommender API: a shallow embedding of [backend/app/main.py]

    The service is a thin layer over a managed datastore and a recommender
    engine.  The endpoints of [main.py] are embedded as computations in a
    state-and-exception monad over the datastore tables and the engine
    object; the engine ([app.recommender]) is an interface the endpoints are
    generic in, and is instantiated further down by a TF-IDF engine. *)

From Stdlib Require Import List String Ascii Bool Arith ZArith QArith Reals Lia Lra.
Import ListNotations.

Set Implicit Arguments.

Local Open Scope string_scope.
Local Open Scope list_scope.

(** ** Records exchanged with the datastore and the caller *)

(** A row of the [programs] table, as the Python dict the service handles.
    [None] stands for an absent key: [program['id']], [program['name']] and
    [program['description']] raise [KeyError] on an absent key, whereas
    [program.get('tags', [])] and [program.get('skills', [])] fall back to the
    empty list on an absent key only.  Under the keys [tags] and [skills] the
    value itself is a list or Python's [None] (a NULL column): [Some None] is
    the key with the value [None], [Some (Some l)] the key with the list
    [l]. *)
Record Program := mkProgram {
  p_id : option string;
  p_name : option string;
  p_description : option string;
  p_tags : option (option (list string));
  p_skills : option (option (list string))
}.

(** The request model [StudentProfile] of [POST /students]. *)
Record StudentProfile := mkStudentProfile {
  sp_name : string;
  sp_email : string;
  sp_interests : list string;
  sp_grades : list (string * Q)
}.

(** A row of the [students] table: the inserted columns and the identifier
    the datastore assigns. *)
Record Student := mkStudent {
  s_id : string;
  s_name : string;
  s_email : string;
  s_interests : list string;
  s_grades : list (string * Q)
}.

(** The request model [RecommendationRequest]. *)
Record RecommendationRequest := mkRecommendationRequest {
  student_id : string;
  top_k : Z
}.

(** The request model [FeedbackSubmit]; [rating] is optional. *)
Record FeedbackSubmit := mkFeedbackSubmit {
  fb_program_id : string;
  fb_clicked : bool;
  fb_accepted : bool;
  fb_rating : option Z
}.

(** The dict [feedback_data] inserted into the [feedback] table; the key
    ["rating"] is only set when the submission carries a rating. *)
Record FeedbackRow := mkFeedbackRow {
  f_student_id : string;
  f_program_id : string;
  f_clicked : bool;
  f_accepted : bool;
  f_rating : option Z
}.

(** ** Exceptions *)

(** The error taxonomy of the engine. *)
Inductive EngineError := ValidationError | ConflictError | InvalidArgumentError.

(** Exceptions other than [HTTPException] that an endpoint body can raise:
    a missing key, an exception of the engine, or the validation error of the
    constructor of a response model. *)
Inductive PyException :=
| KeyError (key : string)
| EngineException (e : EngineError)
| ModelValidationError.

(** The [detail] of an [HTTPException]: a literal message, or [str(e)] of the
    exception the endpoint caught. *)
Inductive Detail :=
| Text (s : string)
| Str (e : PyException).

Record HTTPException := mkHTTPException {
  status_code : nat;
  detail : Detail
}.

Inductive Raised :=
| Http (h : HTTPException)
| Other (e : PyException).

(** ** The recommender engine, as the service sees it

    [recommender_engine] is one long-lived object.  [Index] is its state,
    [fit] computes the state a successful [recommender_engine.fit(programs)]
    leaves behind, and [recommend] is [recommender_engine.recommend] read
    against that state; it yields [(program, score, explanation)] triples. *)
Class RecommenderEngine := {
  Index : Type;
  Score : Type;
  Explanation : Type;
  fit : list Program -> EngineError + Index;
  recommend : Index -> Student -> Z -> EngineError + list (Program * Score * Explanation)
}.

Section Service.

Context {engine_class : RecommenderEngine}.

(** Modelled from the spec: the identifier the managed datastore assigns to
    the n-th row of the [students] table ([app.database] is not part of the
    sources). *)
Variable new_id : nat -> string.

(** The dict [rec_data] inserted into the [recommendations] table. *)
Record RecommendationRow := mkRecommendationRow {
  r_student_id : string;
  r_program_id : string;
  r_score : Score;
  r_explanation : Explanation;
  r_algorithm : string
}.

(** The response model [Recommendation], with the values its constructor was
    given: [tags] and [skills] are a list or Python's [None]. *)
Record Recommendation := mkRecommendation {
  program_id : string;
  program_name : string;
  program_description : string;
  score : Score;
  explanation : Explanation;
  tags : option (list string);
  skills : option (list string)
}.

(** Modelled from the spec: the validation the constructor [Recommendation(...)]
    runs on its arguments; the declaration of the model ([app.models]) is not
    part of the sources.  [accepts r] tells whether the arguments [r] pass;
    otherwise the constructor raises its validation error. *)
Class ResponseModel := {
  accepts : Recommendation -> bool
}.

Context {response_model : ResponseModel}.

(** Modelled from the spec: the managed datastore ([app.database] is not part
    of the sources) is a collaborator that stores rows; it is represented by
    its four tables, each the list of its rows in insertion order.  The state
    the endpoints run against is these tables and the engine object. *)
Record State := mkState {
  students : list Student;
  programs : list Program;
  recommendations : list RecommendationRow;
  feedback : list FeedbackRow;
  recommender_engine : Index
}.

(** ** State and exception monad

    A raised exception keeps the state reached so far: inserts made before
    the exception stay in the datastore. *)
Definition M (A : Type) : Type := State -> (Raised + A) * State.

Definition ret {A} (a : A) : M A := fun st => (inr a, st).

Definition raise {A} (e : Raised) : M A := fun st => (inl e, st).

Definition bind {A B} (c : M A) (k : A -> M B) : M B :=
  fun st =>
    match c st with
    | (inl e, st') => (inl e, st')
    | (inr a, st') => k a st'
    end.

Notation "x <- c ;; k" := (bind c (fun x => k))
  (at level 61, c at next level, right associativity).

Definition gets {A} (f : State -> A) : M A := fun st => (inr (f st), st).

Definition modify (f : State -> State) : M unit := fun st => (inr tt, f st).

(** [try: ... except HTTPException: raise; except Exception as e:
    raise HTTPException(status_code=500, detail=str(e))]. *)
Definition handle {A} (body : M A) : State -> (HTTPException + A) * State :=
  fun st =>
    match body st with
    | (inr a, st') => (inr a, st')
    | (inl (Http h), st') => (inl h, st')
    | (inl (Other e), st') => (inl (mkHTTPException 500 (Str e)), st')
    end.

(** [d[key]] on a dict whose key may be absent. *)
Definition subscript {A} (key : string) (field : option A) : M A :=
  match field with
  | Some v => ret v
  | None => raise (Other (KeyError key))
  end.

(** [d.get(key, default)]. *)
Definition get_default {A} (field : option A) (default : A) : A :=
  match field with
  | Some v => v
  | None => default
  end.

(** ** Datastore queries

    A [select] with an [eq] filter returns the rows whose column equals the
    value; an [insert] appends the row and returns it as stored. *)

(** [supabase.table("students").select("*").eq("email", email).execute().data] *)
Definition select_students_by_email (email : string) : M (list Student) :=
  gets (fun st => filter (fun s => String.eqb (s_email s) email) (students st)).

(** [supabase.table("students").select("*").eq("id", id).execute().data] *)
Definition select_students_by_id (id : string) : M (list Student) :=
  gets (fun st => filter (fun s => String.eqb (s_id s) id) (students st)).

(** [supabase.table("programs").select("*").execute().data] *)
Definition select_programs : M (list Program) := gets programs.

(** [supabase.table("students").insert({...}).execute().data[0]]: the stored
    row, with its identifier. *)
Definition insert_student (student : StudentProfile) : M Student :=
  fun st =>
    let row := mkStudent (new_id (List.length (students st))) (sp_name student)
                         (sp_email student) (sp_interests student)
                         (sp_grades student) in
    (inr row,
     mkState (students st ++ [row]) (programs st) (recommendations st)
             (feedback st) (recommender_engine st)).

(** [supabase.table("recommendations").insert(rec_data).execute()] *)
Definition insert_recommendation (rec_data : RecommendationRow) : M unit :=
  modify (fun st =>
    mkState (students st) (programs st) (recommendations st ++ [rec_data])
            (feedback st) (recommender_engine st)).

(** [supabase.table("feedback").insert(feedback_data).execute().data[0]] *)
Definition insert_feedback (feedback_data : FeedbackRow) : M FeedbackRow :=
  fun st =>
    (inr feedback_data,
     mkState (students st) (programs st) (recommendations st)
             (feedback st ++ [feedback_data]) (recommender_engine st)).

(** ** Calls on the engine object *)

(** [recommender_engine.fit(programs)]: on success the engine holds the new
    index; an exception leaves the object as it was. *)
Definition engine_fit (catalog : list Program) : M unit :=
  fun st =>
    match fit catalog with
    | inl e => (inl (Other (EngineException e)), st)
    | inr index =>
        (inr tt,
         mkState (students st) (programs st) (recommendations st)
                 (feedback st) index)
    end.

(** [recommender_engine.recommend(student_data, top_k=...)], read against
    the index the engine object holds at that moment. *)
Definition engine_recommend (student_data : Student) (k : Z)
  : M (list (Program * Score * Explanation)) :=
  fun st =>
    match recommend (recommender_engine st) student_data k with
    | inl e => (inl (Other (EngineException e)), st)
    | inr results => (inr results, st)
    end.

(** ** Endpoints *)

(** [startup_event] *)
Definition startup_event : M unit :=
  catalog <- select_programs ;;
  match catalog with
  | [] => ret tt
  | _ :: _ => engine_fit catalog
  end.

(** [create_student], the body of the [try] block. *)
Definition create_student_body (student : StudentProfile) : M Student :=
  existing <- select_students_by_email (sp_email student) ;;
  match existing with
  | _ :: _ =>
      raise (Http (mkHTTPException 400 (Text "Student with this email already exists")))
  | [] => insert_student student
  end.

Definition create_student (student : StudentProfile) :=
  handle (create_student_body student).

(** [Recommendation(...)]: the constructor of the response model, which
    validates its arguments. *)
Definition new_recommendation (r : Recommendation) : M Recommendation :=
  if accepts r then ret r else raise (Other ModelValidationError).

(** One iteration of the loop of [get_recommendations] over the engine's
    triples: the row is inserted first, then the response item is built. *)
Definition persist_and_render (request : RecommendationRequest)
    (item : Program * Score * Explanation) : M Recommendation :=
  let '(program, sc, expl) := item in
  pid <- subscript "id" (p_id program) ;;
  _ <- insert_recommendation
         (mkRecommendationRow (student_id request) pid sc expl "content-based") ;;
  name <- subscript "name" (p_name program) ;;
  description <- subscript "description" (p_description program) ;;
  new_recommendation
    (mkRecommendation pid name description sc expl
       (get_default (p_tags program) (Some []))
       (get_default (p_skills program) (Some []))).

(** The loop itself, with [response_recommendations] as accumulator. *)
Fixpoint recommendation_loop (request : RecommendationRequest)
    (items : list (Program * Score * Explanation))
    (response_recommendations : list Recommendation)
  : M (list Recommendation) :=
  match items with
  | [] => ret response_recommendations
  | item :: rest =>
      r <- persist_and_render request item ;;
      recommendation_loop request rest (response_recommendations ++ [r])
  end.

(** [get_recommendations], the body of the [try] block. *)
Definition get_recommendations_body (request : RecommendationRequest)
  : M (list Recommendation) :=
  student_result <- select_students_by_id (student_id request) ;;
  match student_result with
  | [] => raise (Http (mkHTTPException 404 (Text "Student not found")))
  | student_data :: _ =>
      catalog <- select_programs ;;
      match catalog with
      | [] => ret []
      | _ :: _ =>
          _ <- engine_fit catalog ;;
          results <- engine_recommend student_data (top_k request) ;;
          recommendation_loop request results []
      end
  end.

Definition get_recommendations (request : RecommendationRequest) :=
  handle (get_recommendations_body request).

(** [submit_feedback], the body of the [try] block. *)
Definition submit_feedback_body (sid : string) (fb : FeedbackSubmit)
  : M FeedbackRow :=
  rating <-
    match fb_rating fb with
    | Some r =>
        if ((r <? 1) || (5 <? r))%Z
        then raise (Http (mkHTTPException 400 (Text "Rating must be between 1 and 5")))
        else ret (Some r)
    | None => ret None
    end ;;
  insert_feedback
    (mkFeedbackRow sid (fb_program_id fb) (fb_clicked fb) (fb_accepted fb) rating).

Definition submit_feedback (sid : string) (fb : FeedbackSubmit) :=
  handle (submit_feedback_body sid fb).

End Service.

(** * The recommender engine ([app.recommender])

    The module [app.recommender] is not part of the sources; the engine below
    follows its specification: a feature indexer ([fit]) and a ranker
    ([recommend]).  Weights and scores are real numbers. *)
Module Recommender.

Local Open Scope R_scope.

(** Modelled from the spec: the configuration surface of the engine, which
    [app.recommender] would fix (stop-word set, tag/skill weight multiplier
    relative to free text, grade-strength threshold, explanation term
    count). *)
Record Config := mkConfig {
  stop_words : list string;
  boost : nat;
  grade_threshold : Q;
  explanation_terms : nat
}.

(** ** Tokenization *)

(** Modelled from the spec: the alphanumeric characters are the ASCII digits
    and letters ([app.recommender] is absent). *)
Definition is_digit (c : ascii) : bool :=
  let n := nat_of_ascii c in (48 <=? n)%nat && (n <=? 57)%nat.

Definition is_upper (c : ascii) : bool :=
  let n := nat_of_ascii c in (65 <=? n)%nat && (n <=? 90)%nat.

Definition is_lower (c : ascii) : bool :=
  let n := nat_of_ascii c in (97 <=? n)%nat && (n <=? 122)%nat.

Definition is_alnum (c : ascii) : bool := is_digit c || is_upper c || is_lower c.

(** Modelled from the spec: lower-casing of a character ([app.recommender]
    is absent). *)
Definition to_lower (c : ascii) : ascii :=
  if is_upper c then ascii_of_nat (nat_of_ascii c + 32) else c.

(** The token read so far, if any. *)
Definition flush (current : string) : list string :=
  match current with
  | EmptyString => []
  | _ => [current]
  end.

(** Modelled from the spec: lower-case and split on non-alphanumeric
    boundaries ([app.recommender] is absent); [current] is the token being
    read. *)
Fixpoint split_tokens (s : string) (current : string) : list string :=
  match s with
  | EmptyString => flush current
  | String c rest =>
      if is_alnum c
      then split_tokens rest (current ++ String (to_lower c) EmptyString)
      else flush current ++ split_tokens rest EmptyString
  end.

(** Modelled from the spec: tokenize, then discard the stop-word set
    ([app.recommender] is absent). *)
Definition tokenize (cfg : Config) (s : string) : list string :=
  filter (fun t => negb (existsb (String.eqb t) (stop_words cfg)))
         (split_tokens s EmptyString).

(** Modelled from the spec: a tag, skill, interest or strong subject is a
    categorical signal; each of its tokens is repeated [boost] times
    ([app.recommender] is absent). *)
Definition categorical (cfg : Config) (labels : list string) : list string :=
  flat_map (fun t => repeat t (boost cfg)) (flat_map (tokenize cfg) labels).

(** The labels under a list-valued key; none when the key is absent or its
    value is [None]. *)
Definition labels (field : option (option (list string))) : list string :=
  match field with
  | Some (Some l) => l
  | _ => []
  end.

(** Modelled from the spec: the document of a program is the concatenation
    of its description, tags and skills ([app.recommender] is absent). *)
Definition program_document (cfg : Config) (p : Program) : list string :=
  tokenize cfg (get_default (p_description p) EmptyString)
  ++ categorical cfg (labels (p_tags p))
  ++ categorical cfg (labels (p_skills p)).

(** Modelled from the spec: the subjects whose grade is above the threshold
    ([app.recommender] is absent). *)
Definition strong_subjects (cfg : Config) (grades : list (string * Q)) : list string :=
  map fst (filter (fun g => negb (Qle_bool (snd g) (grade_threshold cfg))) grades).

(** Modelled from the spec: the document of a student is built from the
    interests and the strong subjects, both as categorical tokens
    ([app.recommender] is absent). *)
Definition student_document (cfg : Config) (s : Student) : list string :=
  categorical cfg (s_interests s)
  ++ categorical cfg (strong_subjects cfg (s_grades s)).

(** ** Vector arithmetic *)

(** Modelled from the spec: the shared vector-math utilities
    ([app.recommender] is absent): dot product, sum of squares, L2 norm. *)
Definition dot (u v : list R) : R :=
  fold_right Rplus 0 (map (fun xy => fst xy * snd xy) (combine u v)).

Definition sum_squares (u : list R) : R :=
  fold_right Rplus 0 (map (fun x => x * x) u).

Definition l2_norm (u : list R) : R := sqrt (sum_squares u).

(** Modelled from the spec: scaling to unit L2 norm ([app.recommender] is
    absent); the all-zero vector is left as it is. *)
Definition normalize (u : list R) : list R :=
  if Rlt_dec 0 (l2_norm u) then map (fun x => x / l2_norm u) u else u.

(** Modelled from the spec: a feature vector, one weight per dimension of
    the vocabulary, with its cached L2 norm ([app.recommender] is absent). *)
Record FeatureVector := mkFeatureVector {
  weights : list R;
  norm : R
}.

(** The feature vector of raw weights: normalized, with its norm. *)
Definition feature_vector (raw : list R) : FeatureVector :=
  mkFeatureVector (normalize raw) (l2_norm (normalize raw)).

(** ** Feature indexer *)

(** Modelled from the spec: term frequency, the number of occurrences of a
    token in a document ([app.recommender] is absent). *)
Definition tf (t : string) (document : list string) : nat :=
  count_occ string_dec document t.

(** Modelled from the spec: document frequency, the number of documents that
    contain the term ([app.recommender] is absent). *)
Definition df (t : string) (documents : list (list string)) : nat :=
  List.length (filter (fun d => existsb (String.eqb t) d) documents).

(** Modelled from the spec: smoothed inverse document frequency,
    [log((1 + N) / (1 + df)) + 1] ([app.recommender] is absent). *)
Definition idf (n d : nat) : R := ln ((1 + INR n) / (1 + INR d)) + 1.

(** Modelled from the spec: term frequency scaled by inverse document
    frequency, one weight per vocabulary term ([app.recommender] is absent);
    tokens outside the vocabulary contribute nothing. *)
Definition tfidf (vocabulary : list string) (idfs : list R)
    (document : list string) : list R :=
  map (fun ti => INR (tf (fst ti) document) * snd ti) (combine vocabulary idfs).

(** Modelled from the spec: the fitted index ([app.recommender] is absent):
    the vocabulary (a term's dimension is its position), the inverse document
    frequency of each term, and the program vectors keyed by program
    identifier, each with the record it was built from. *)
Record FittedIndex := mkFittedIndex {
  vocabulary : list string;
  idf_weights : list R;
  entries : list (string * Program * FeatureVector)
}.

(** Modelled from the spec: the records are read in order; a record without
    identifier is rejected with [ValidationError], and a record whose
    identifier was already seen with [ConflictError] ([app.recommender] is
    absent). *)
Fixpoint key_programs (seen : list string) (catalog : list Program)
  : EngineError + list (string * Program) :=
  match catalog with
  | [] => inr []
  | p :: rest =>
      match p_id p with
      | None => inl ValidationError
      | Some i =>
          if existsb (String.eqb i) seen then inl ConflictError
          else match key_programs (i :: seen) rest with
               | inl e => inl e
               | inr keyed => inr ((i, p) :: keyed)
               end
      end
  end.

(** Modelled from the spec: the index of a catalog whose records were keyed
    ([app.recommender] is absent): the vocabulary of all documents, the
    inverse document frequency of each term, and one normalized vector per
    program. *)
Definition build_index (cfg : Config) (keyed : list (string * Program))
  : FittedIndex :=
  let documents := map (fun kp => program_document cfg (snd kp)) keyed in
  let vocab := nodup string_dec (List.concat documents) in
  let idfs := map (fun t => idf (List.length documents) (df t documents)) vocab in
  mkFittedIndex vocab idfs
    (map (fun kp =>
            (fst kp, snd kp,
             feature_vector (tfidf vocab idfs (program_document cfg (snd kp)))))
         keyed).

(** Modelled from the spec: [fit(programs) -> FittedIndex]
    ([app.recommender] is absent).  A new index is built; nothing is
    updated in place. *)
Definition fit (cfg : Config) (catalog : list Program)
  : EngineError + FittedIndex :=
  match key_programs [] catalog with
  | inl e => inl e
  | inr keyed => inr (build_index cfg keyed)
  end.

(** ** Ranker *)

(** Modelled from the spec: the student is projected with the index's
    vocabulary and inverse document frequencies, and scaled to unit norm
    ([app.recommender] is absent). *)
Definition student_vector (cfg : Config) (index : FittedIndex) (s : Student)
  : FeatureVector :=
  feature_vector
    (tfidf (vocabulary index) (idf_weights index) (student_document cfg s)).

(** Modelled from the spec: cosine similarity, the dot product of two unit
    vectors ([app.recommender] is absent). *)
Definition cosine (u v : FeatureVector) : R := dot (weights u) (weights v).

(** Modelled from the spec: sorting ([app.recommender] is absent), as an
    insertion sort by a boolean order. *)
Fixpoint insert_by {A} (before : A -> A -> bool) (x : A) (l : list A) : list A :=
  match l with
  | [] => [x]
  | y :: rest => if before x y then x :: l else y :: insert_by before x rest
  end.

(** The sorted list: every element inserted in turn. *)
Definition sort_by {A} (before : A -> A -> bool) (l : list A) : list A :=
  fold_right (insert_by before) [] l.

(** Modelled from the spec: the ranking order ([app.recommender] is absent):
    descending by score, ties by ascending program identifier. *)
Definition ranks_before (a b : string * Program * FeatureVector * R) : bool :=
  if Rlt_dec (snd b) (snd a) then true
  else if Rlt_dec (snd a) (snd b) then false
  else String.leb (fst (fst (fst a))) (fst (fst (fst b))).

(** Modelled from the spec: the explanation of a match ([app.recommender] is
    absent): the shared terms that drive it, or no matching signal. *)
Inductive Explanation :=
| NoMatchingSignal
| SharedTerms (terms : list string).

(** Modelled from the spec: the shared terms with the largest product of
    weights, at most [explanation_terms] of them ([app.recommender] is
    absent); the wording of the rationale is left to the caller. *)
Definition explain (cfg : Config) (index : FittedIndex) (u v : FeatureVector)
  : Explanation :=
  let products :=
    combine (vocabulary index)
            (map (fun xy => fst xy * snd xy) (combine (weights u) (weights v))) in
  let shared := filter (fun tp => if Rlt_dec 0 (snd tp) then true else false) products in
  let top :=
    firstn (explanation_terms cfg)
      (sort_by (fun a b : string * R => if Rlt_dec (snd a) (snd b) then false else true)
               shared) in
  match top with
  | [] => NoMatchingSignal
  | _ :: _ => SharedTerms (map fst top)
  end.

(** Modelled from the spec: [recommend(index, student, top_k)]
    ([app.recommender] is absent): [top_k <= 0] is an
    [InvalidArgumentError]; otherwise every fitted program is scored, the
    scores are ranked and the first [top_k] are returned, each with its
    explanation. *)
Definition recommend (cfg : Config) (index : FittedIndex) (s : Student) (k : Z)
  : EngineError + list (Program * R * Explanation) :=
  if (k <=? 0)%Z then inl InvalidArgumentError
  else
    let u := student_vector cfg index s in
    let scored := map (fun e => (e, cosine u (snd e))) (entries index) in
    let ranked := firstn (Z.to_nat k) (sort_by ranks_before scored) in
    inr (map (fun es =>
                (snd (fst (fst es)), snd es, explain cfg index u (snd (fst es))))
             ranked).

End Recommender.

(** Modelled from the spec: the engine object the service imports from
    [app.recommender] (absent), for a given configuration. *)
#[export] Instance tfidf_engine (cfg : Recommender.Config) : RecommenderEngine := {
  Index := Recommender.FittedIndex;
  Score := R;
  Explanation := Recommender.Explanation;
  fit := Recommender.fit cfg;
  recommend := Recommender.recommend cfg
}.

(** * Notions used to state the properties of the endpoints *)

Section ServiceNotions.

Context {engine_class : RecommenderEngine}.

(** The state [st] with the engine object holding [index]. *)
Definition with_engine (st : State) (index : Index) : State :=
  mkState (students st) (programs st) (recommendations st) (feedback st) index.

(** Two states hold the same tables. *)
Definition same_tables (st1 st2 : State) : Prop :=
  students st1 = students st2 /\ programs st1 = programs st2 /\
  recommendations st1 = recommendations st2 /\ feedback st1 = feedback st2.

(** What a response item shows of the engine's triple it was built from:
    the program's identifier, name and description; under [tags] and
    [skills] the value the program has under that key, or the empty list
    when the program has no such key; the triple's score and explanation. *)
Definition renders (item : Program * Score * Explanation) (r : Recommendation)
  : Prop :=
  let '(program, sc, expl) := item in
  p_id program = Some (program_id r) /\
  p_name program = Some (program_name r) /\
  p_description program = Some (program_description r) /\
  match p_tags program with
  | Some value => tags r = value
  | None => tags r = Some []
  end /\
  match p_skills program with
  | Some value => skills r = value
  | None => skills r = Some []
  end /\
  score r = sc /\
  explanation r = expl.

(** A row of the [recommendations] table and a response item stand for the
    same recommendation of one request. *)
Definition persisted_as (request : RecommendationRequest)
    (row : RecommendationRow) (r : Recommendation) : Prop :=
  r_student_id row = student_id request /\
  r_program_id row = program_id r /\
  r_score row = score r /\
  r_explanation row = explanation r /\
  r_algorithm row = "content-based".

(** The ranking a call is answered from: nothing for an empty catalog,
    otherwise the engine fitted on the catalog and asked for [k] results. *)
Definition ranking (catalog : list Program) (student_data : Student) (k : Z)
  : EngineError + list (Program * Score * Explanation) :=
  match catalog with
  | [] => inr []
  | _ :: _ =>
      match fit catalog with
      | inl e => inl e
      | inr index => recommend index student_data k
      end
  end.

End ServiceNotions.

(** * Notions used to state the properties of the engine *)

(** A vector with non-negative weights and L2 norm at most 1. *)
Definition sub_unit (u : list R) : Prop :=
  Forall (fun x => (0 <= x)%R) u /\ (Recommender.sum_squares u <= 1)%R.

(** What [fit] establishes and [recommend] relies on: the inverse document
    frequencies are non-negative and every program vector is [sub_unit]. *)
Definition well_formed (index : Recommender.FittedIndex) : Prop :=
  Forall (fun x => (0 <= x)%R) (Recommender.idf_weights index) /\
  Forall (fun e => sub_unit (Recommender.weights (snd e)))
         (Recommender.entries index).

(** * A small catalog and a student

    The catalog and the student of the specification's concrete scenario,
    with a grade threshold of 90. *)
Module Sample.

Definition config : Recommender.Config :=
  Recommender.mkConfig ["a"; "an"; "and"; "the"; "of"; "in"; "for"; "to"] 3 (90 # 1) 5.

Definition p1 : Program :=
  mkProgram (Some "p1") (Some "Data Analytics") (Some "data analytics program")
            (Some (Some ["data"; "python"])) (Some (Some ["sql"])).

Definition p2 : Program :=
  mkProgram (Some "p2") (Some "Visual Arts") (Some "visual arts program")
            (Some (Some ["art"; "design"])) (Some (Some ["drawing"])).

Definition student : Student :=
  mkStudent "s1" "Ada" "ada@example.org" ["data"; "statistics"] [("math", 95 # 1)].

Definition profile : StudentProfile :=
  mkStudentProfile "Ada" "ada@example.org" ["data"; "statistics"] [("math", 95 # 1)].

Definition new_id (n : nat) : string :=
  String (ascii_of_nat (49 + n)) EmptyString.

Definition empty_index : Recommender.FittedIndex :=
  Recommender.build_index config [].

(** Modelled from the spec: a response model whose [tags] and [skills] are
    lists, as the spec's RankedResult carries them ([app.models] is not part
    of the sources): the constructor rejects [None] for either. *)
#[global] Instance models : ResponseModel (engine_class := tfidf_engine config) := {
  accepts r :=
    match tags r, skills r with
    | Some _, Some _ => true
    | _, _ => false
    end
}.

(** The datastore holds the student and no program; the engine holds the
    index of an empty catalog. *)
Definition state_without_programs : State (engine_class := tfidf_engine config) :=
  mkState (engine_class := tfidf_engine config) [student] [] [] [] empty_index.

(** The datastore holds the student and one program; the engine still holds
    the index of an empty catalog. *)
Definition state_one_program : State (engine_class := tfidf_engine config) :=
  mkState (engine_class := tfidf_engine config) [student] [p1] [] [] empty_index.

(** The datastore holds the student and both programs. *)
Definition state_two_programs : State (engine_class := tfidf_engine config) :=
  mkState (engine_class := tfidf_engine config) [student] [p1; p2] [] [] empty_index.

(** The datastore holds the student and no program any more; the engine
    still holds the index fitted when the catalog was [[p1]]. *)
Definition state_stale_index : State (engine_class := tfidf_engine config) :=
  mkState (engine_class := tfidf_engine config) [student] [] [] []
          (Recommender.build_index config [("p1", p1)]).

Definition request : RecommendationRequest := mkRecommendationRequest "s1" 5.

(** The indexes [fit] builds on the one-program and two-program catalogs. *)
Definition index_one : Recommender.FittedIndex :=
  Recommender.build_index config [("p1", p1)].

Definition index_two : Recommender.FittedIndex :=
  Recommender.build_index config [("p1", p1); ("p2", p2)].

(** The response to [request] on the one-program catalog, and the state the
    call leaves. *)
Definition response_one : list (Recommendation (engine_class := tfidf_engine config)) :=
  match fst (get_recommendations request state_one_program) with
  | inr response => response
  | inl _ => []
  end.

Definition state_after_one : State (engine_class := tfidf_engine config) :=
  snd (get_recommendations request state_one_program).

(** A feedback submission with a rating of 6. *)
Definition feedback_rating_6 : FeedbackSubmit :=
  mkFeedbackSubmit "p1" true false (Some 6%Z).

End Sample.

(** * The other endpoints of [main.py] *)

(** The request model [StudentUpdate] of [PUT /students/{student_id}]: every
    field is optional. *)
Record StudentUpdate := mkStudentUpdate {
  su_name : option string;
  su_interests : option (list string);
  su_grades : option (list (string * Q))
}.

(** The dict [update_data] of [update_student]; [None] is an absent key. *)
Record UpdateData := mkUpdateData {
  u_name : option string;
  u_interests : option (list string);
  u_grades : option (list (string * Q));
  u_updated_at : option string
}.

Section OtherEndpoints.

Context {engine_class : RecommenderEngine}.
Context {response_model : ResponseModel}.
Variable new_id : nat -> string.

Notation "x <- c ;; k" := (bind c (fun x => k))
  (at level 61, c at next level, right associativity).

(** [try: ... except Exception as e: raise HTTPException(status_code=500,
    detail=str(e))], around a body that raises no [HTTPException] itself. *)
Definition handle_exception {A} (body : State -> (PyException + A) * State)
  : State -> (HTTPException + A) * State :=
  fun st =>
    match body st with
    | (inr a, st') => (inr a, st')
    | (inl e, st') => (inl (mkHTTPException 500 (Str e)), st')
    end.

(** [get_programs] *)
Definition get_programs : State -> (HTTPException + list Program) * State :=
  handle_exception (fun st => (inr (programs st), st)).

(** [get_student], the body of the [try] block. *)
Definition get_student_body (sid : string) : M Student :=
  result <- select_students_by_id sid ;;
  match result with
  | [] => raise (Http (mkHTTPException 404 (Text "Student not found")))
  | row :: _ => ret row
  end.

Definition get_student (sid : string) := handle (get_student_body sid).

(** [not update_data]: the dict has no key. *)
Definition is_empty_dict (d : UpdateData) : bool :=
  match u_name d, u_interests d, u_grades d, u_updated_at d with
  | None, None, None, None => true
  | _, _, _, _ => false
  end.

(** A row of the [students] table after an update with [update_data]: the
    columns that are keys of the dict take its values.  The column
    [updated_at] is a timestamp of the datastore and, like [created_at], not
    part of the row as the endpoints use it. *)
Definition apply_update (d : UpdateData) (s : Student) : Student :=
  mkStudent (s_id s) (get_default (u_name d) (s_name s)) (s_email s)
            (get_default (u_interests d) (s_interests s))
            (get_default (u_grades d) (s_grades s)).

(** [supabase.table("students").update(update_data).eq("id", id).execute().data]:
    the rows with that identifier are updated in place; the result is the
    updated rows. *)
Definition update_students_by_id (d : UpdateData) (id : string) : M (list Student) :=
  fun st =>
    let updated :=
      map (fun s => if String.eqb (s_id s) id then apply_update d s else s)
          (students st) in
    (inr (filter (fun s => String.eqb (s_id s) id) updated),
     mkState updated (programs st) (recommendations st) (feedback st)
             (recommender_engine st)).

(** [update_student], the body of the [try] block. *)
Definition update_student_body (sid : string) (student_update : StudentUpdate)
  : M Student :=
  let update_data :=
    mkUpdateData (su_name student_update) (su_interests student_update)
                 (su_grades student_update) None in
  if is_empty_dict update_data
  then raise (Http (mkHTTPException 400 (Text "No fields to update")))
  else
    result <- update_students_by_id
                (mkUpdateData (u_name update_data) (u_interests update_data)
                              (u_grades update_data) (Some "now()")) sid ;;
    match result with
    | [] => raise (Http (mkHTTPException 404 (Text "Student not found")))
    | row :: _ => ret row
    end.

Definition update_student (sid : string) (student_update : StudentUpdate) :=
  handle (update_student_body sid student_update).

(** The program a row of [recommendations] refers to, if the catalog has
    it: the embedded [programs] resource of the select. *)
Definition program_of (catalog : list Program) (row : RecommendationRow)
  : option Program :=
  find (fun p => match p_id p with
                 | Some i => String.eqb i (r_program_id row)
                 | None => false
                 end) catalog.

(** [get_student_recommendations]: the rows of [recommendations] with that
    [student_id], each with its embedded program, ordered by [created_at]
    descending and limited to 10.  The table keeps its rows in insertion
    order, which is the order of [created_at]. *)
Definition get_student_recommendations (sid : string)
  : State -> (HTTPException + list (RecommendationRow * option Program)) * State :=
  handle_exception (fun st =>
    (inr (firstn 10
            (rev (map (fun row => (row, program_of (programs st) row))
                      (filter (fun row => String.eqb (r_student_id row) sid)
                              (recommendations st))))),
     st)).

(** ** Sequences of calls *)

(** One call of the service: an endpoint with its arguments, or the startup
    event. *)
Inductive Call :=
| Startup
| GetPrograms
| CreateStudent (student : StudentProfile)
| GetStudent (sid : string)
| UpdateStudent (sid : string) (student_update : StudentUpdate)
| GetRecommendations (request : RecommendationRequest)
| SubmitFeedback (sid : string) (fb : FeedbackSubmit)
| GetStudentRecommendations (sid : string).

(** The state a call leaves, whether it answers or raises. *)
Definition step (st : State) (c : Call) : State :=
  match c with
  | Startup => snd (startup_event st)
  | GetPrograms => snd (get_programs st)
  | CreateStudent student => snd (create_student new_id student st)
  | GetStudent sid => snd (get_student sid st)
  | UpdateStudent sid student_update => snd (update_student sid student_update st)
  | GetRecommendations request => snd (get_recommendations request st)
  | SubmitFeedback sid fb => snd (submit_feedback sid fb st)
  | GetStudentRecommendations sid => snd (get_student_recommendations sid st)
  end.

Definition run (calls : list Call) (st : State) : State :=
  fold_left step calls st.

(** ** Notions used to state the properties of these endpoints *)

(** The row [rec_data] the loop inserts for a triple whose program has the
    key [id]. *)
Definition row_of (request : RecommendationRequest)
    (item : Program * Score * Explanation) : RecommendationRow :=
  mkRecommendationRow (student_id request)
    (match p_id (fst (fst item)) with Some v => v | None => EmptyString end)
    (snd (fst item)) (snd item) "content-based".

(** The arguments the loop gives the constructor [Recommendation(...)] for a
    triple whose program has the keys [id], [name] and [description]: the
    values under these keys, and under [tags] and [skills] the value under
    the key, or the empty list when the key is absent. *)
Definition recommendation_of (item : Program * Score * Explanation)
  : Recommendation :=
  mkRecommendation
    (match p_id (fst (fst item)) with Some v => v | None => EmptyString end)
    (match p_name (fst (fst item)) with Some v => v | None => EmptyString end)
    (match p_description (fst (fst item)) with
     | Some v => v
     | None => EmptyString
     end)
    (snd (fst item)) (snd item)
    (match p_tags (fst (fst item)) with Some value => value | None => Some [] end)
    (match p_skills (fst (fst item)) with Some value => value | None => Some [] end).

(** The loop of [get_recommendations] gets through a triple: its program has
    the three keys the loop subscripts, and the response model accepts the
    arguments built from it. *)
Definition is_renderable (item : Program * Score * Explanation) : bool :=
  match p_id (fst (fst item)), p_name (fst (fst item)),
        p_description (fst (fst item)) with
  | Some _, Some _, Some _ => accepts (recommendation_of item)
  | _, _, _ => false
  end.

(** What the loop raises on a triple it does not get through: [KeyError] for
    the first key the program lacks, in the order the loop subscripts them,
    or else the validation error of the response model. *)
Definition failure_of (item : Program * Score * Explanation) : PyException :=
  match p_id (fst (fst item)), p_name (fst (fst item)),
        p_description (fst (fst item)) with
  | None, _, _ => KeyError "id"
  | Some _, None, _ => KeyError "name"
  | Some _, Some _, None => KeyError "description"
  | Some _, Some _, Some _ => ModelValidationError
  end.

(** A stored rating, when present, lies between 1 and 5. *)
Definition rating_in_range (row : FeedbackRow) : Prop :=
  match f_rating row with
  | Some r => (1 <= r <= 5)%Z
  | None => True
  end.

End OtherEndpoints.

(** * More sample data: requests, states and a sequence of calls *)
Module Scenario.

(** A request of a student the datastore does not know. *)
Definition unknown_request : RecommendationRequest :=
  mkRecommendationRequest "nobody" 5.

(** The catalog holds the same record twice. *)
Definition state_duplicate : State (engine_class := tfidf_engine Sample.config) :=
  mkState (engine_class := tfidf_engine Sample.config)
          [Sample.student] [Sample.p1; Sample.p1] [] [] Sample.empty_index.

(** A program without the key [name]. *)
Definition p3 : Program :=
  mkProgram (Some "p3") None (Some "music theory program")
            (Some (Some ["music"])) None.

(** A program whose [tags] column is NULL: the key is there, its value is
    [None]. *)
Definition p4 : Program :=
  mkProgram (Some "p4") (Some "Film Studies") (Some "film history program")
            (Some None) (Some (Some ["editing"])).

Definition state_null_tags : State (engine_class := tfidf_engine Sample.config) :=
  mkState (engine_class := tfidf_engine Sample.config)
          [Sample.student] [p4] [] [] Sample.empty_index.

(** The triple the engine returns for [p4]. *)
Definition item_null_tags : Program * R * Recommender.Explanation :=
  match ranking (engine_class := tfidf_engine Sample.config)
                [p4] Sample.student 5 with
  | inr (item :: _) => item
  | _ => (p4, 0%R, Recommender.NoMatchingSignal)
  end.

Definition state_nameless : State (engine_class := tfidf_engine Sample.config) :=
  mkState (engine_class := tfidf_engine Sample.config)
          [Sample.student] [p3] [] [] Sample.empty_index.

(** The triple the engine returns for [p3]. *)
Definition item_nameless : Program * R * Recommender.Explanation :=
  match ranking (engine_class := tfidf_engine Sample.config)
                [p3] Sample.student 5 with
  | inr (item :: _) => item
  | _ => (p3, 0%R, Recommender.NoMatchingSignal)
  end.

(** The ranking of the one-program catalog. *)
Definition items_one : list (Program * R * Recommender.Explanation) :=
  match ranking (engine_class := tfidf_engine Sample.config)
                [Sample.p1] Sample.student 5 with
  | inr items => items
  | inl _ => []
  end.

(** A second student, and the row and state his creation gives. *)
Definition bob : StudentProfile :=
  mkStudentProfile "Bob" "bob@example.org" ["art"] [].

Definition bob_row : Student :=
  mkStudent (Sample.new_id 1) "Bob" "bob@example.org" ["art"] [].

Definition state_with_bob : State (engine_class := tfidf_engine Sample.config) :=
  mkState (engine_class := tfidf_engine Sample.config)
          [Sample.student; bob_row] [Sample.p1] [] [] Sample.empty_index.

(** An update that sets no field, and one that sets the name. *)
Definition no_update : StudentUpdate := mkStudentUpdate None None None.

Definition rename : StudentUpdate := mkStudentUpdate (Some "Ada L.") None None.

Definition renamed_row : Student :=
  mkStudent "s1" "Ada L." "ada@example.org" ["data"; "statistics"]
            [("math", 95 # 1)].

Definition state_renamed : State (engine_class := tfidf_engine Sample.config) :=
  mkState (engine_class := tfidf_engine Sample.config)
          [renamed_row] [Sample.p1] [] [] Sample.empty_index.

(** A feedback submission with a rating of 4. *)
Definition feedback_rating_4 : FeedbackSubmit :=
  mkFeedbackSubmit "p1" true true (Some 4%Z).

(** A sequence of calls. *)
Definition calls : list Call :=
  [Startup; CreateStudent bob; CreateStudent bob; UpdateStudent "s1" rename;
   GetRecommendations Sample.request;
   SubmitFeedback "s1" Sample.feedback_rating_6;
   SubmitFeedback "s1" feedback_rating_4; GetStudentRecommendations "s1"].

End Scenario.

(** * Properties of the endpoints, for every engine *)

Section ServiceProperties.

Context {engine_class : RecommenderEngine}.
Context {response_model : ResponseModel}.
Variable new_id : nat -> string.

Lemma filter_In_cons {A} (f : A -> bool) (x : A) (l : list A) :
  In x l -> f x = true -> exists y rest, filter f l = y :: rest.
Proof.
  intros Hin Hf.
  assert (Hx : In x (filter f l)) by (apply filter_In; split; assumption).
  destruct (filter f l) as [|y rest]; [destruct Hx | eauto].
Qed.

Lemma NoDup_snoc {A} (l : list A) (x : A) :
  NoDup l -> ~ In x l -> NoDup (l ++ [x]).
Proof.
  induction l as [|y l IH]; simpl; intros Hnd Hx.
  - constructor; [intros []|constructor].
  - inversion Hnd; subst. constructor.
    + intros Hin. apply in_app_or in Hin. destruct Hin as [Hin|[Hin|[]]].
      * contradiction.
      * apply Hx. left. symmetry; assumption.
    + apply IH; [assumption|]. intros Hin. apply Hx. right; assumption.
Qed.

(** One iteration of the loop, when it succeeds: one row is appended, one
    response item is produced, nothing else changes. *)
Lemma persist_and_render_ok request item r st st' :
  persist_and_render request item st = (inr r, st') ->
  renders item r /\
  exists row, persisted_as request row r /\
    st' = mkState (students st) (programs st) (recommendations st ++ [row])
                  (feedback st) (recommender_engine st).
Proof.
  destruct item as [[program sc] expl].
  unfold persist_and_render, bind, subscript, insert_recommendation, modify,
    new_recommendation, ret, raise.
  destruct (p_id program) as [pid|] eqn:Hid; [|discriminate].
  destruct (p_name program) as [name|] eqn:Hname; [|discriminate].
  destruct (p_description program) as [description|] eqn:Hdesc; [|discriminate].
  destruct (accepts _); [|discriminate].
  intros H; inversion H; subst; clear H.
  split.
  - unfold renders; simpl. rewrite Hid, Hname, Hdesc.
    split; [reflexivity|]. split; [reflexivity|]. split; [reflexivity|].
    split; [destruct (p_tags program); reflexivity|].
    split; [destruct (p_skills program); reflexivity|].
    split; reflexivity.
  - eexists; split; [|reflexivity]. unfold persisted_as; simpl. repeat split; reflexivity.
Qed.

(** The loop, when it succeeds: the response grows by one item per triple,
    in order, and the table by one row per item. *)
Lemma recommendation_loop_ok request items :
  forall acc st response st',
    recommendation_loop request items acc st = (inr response, st') ->
    exists rendered rows,
      response = acc ++ rendered /\
      Forall2 renders items rendered /\
      Forall2 (persisted_as request) rows rendered /\
      st' = mkState (students st) (programs st) (recommendations st ++ rows)
                    (feedback st) (recommender_engine st).
Proof.
  induction items as [|item rest IH]; intros acc st response st' H.
  - simpl in H. unfold ret in H. inversion H; subst; clear H.
    exists [], []. rewrite !app_nil_r. repeat split; try constructor.
    destruct st'; reflexivity.
  - simpl in H. unfold bind in H.
    destruct (persist_and_render request item st) as [[e|r] st1] eqn:Hitem;
      [discriminate|].
    apply persist_and_render_ok in Hitem.
    destruct Hitem as [Hr [row [Hrow Hst1]]].
    apply IH in H. destruct H as [rendered [rows [Hresp [Hrend [Hrows Hst']]]]].
    exists (r :: rendered), (row :: rows).
    subst st1; simpl in Hst'.
    repeat split.
    + rewrite Hresp, <- app_assoc; reflexivity.
    + constructor; assumption.
    + constructor; assumption.
    + rewrite Hst', <- app_assoc; reflexivity.
Qed.

(** A successful call of [get_recommendations], taken apart. *)
Lemma get_recommendations_ok request st response st' :
  get_recommendations request st = (inr response, st') ->
  exists student_data others items rows,
    filter (fun s => String.eqb (s_id s) (student_id request)) (students st)
      = student_data :: others /\
    ranking (programs st) student_data (top_k request) = inr items /\
    Forall2 renders items response /\
    Forall2 (persisted_as request) rows response /\
    students st' = students st /\ programs st' = programs st /\
    feedback st' = feedback st /\
    recommendations st' = recommendations st ++ rows.
Proof.
  unfold get_recommendations, handle, get_recommendations_body, bind,
    select_students_by_id, select_programs, gets, raise, ret.
  destruct (filter _ (students st)) as [|student_data others] eqn:Hsel.
  - discriminate.
  - unfold ranking. destruct (programs st) as [|p catalog] eqn:Hcat.
    + intros H; inversion H; subst; clear H.
      exists student_data, others, [], []. rewrite app_nil_r.
      repeat split; try constructor; try assumption; reflexivity.
    + unfold engine_fit, engine_recommend.
      destruct (fit (p :: catalog)) as [e|index] eqn:Hfit; [discriminate|]. simpl.
      destruct (recommend index student_data (top_k request)) as [e|items] eqn:Hrec;
        [discriminate|].
      destruct (recommendation_loop request items [] _) as [[[h|e]|resp] st1] eqn:Hloop;
        try discriminate.
      intros H; inversion H; subst; clear H.
      apply recommendation_loop_ok in Hloop.
      destruct Hloop as [rendered [rows [Hresp [Hrend [Hrows Hst']]]]].
      simpl in Hresp, Hst'. subst.
      exists student_data, others, items, rows. simpl.
      repeat split; assumption.
Qed.

(** The loop leaves the engine object alone, whether it succeeds or not. *)
Lemma recommendation_loop_engine request items :
  forall acc st,
    recommender_engine (snd (recommendation_loop request items acc st))
      = recommender_engine st.
Proof.
  induction items as [|item rest IH]; intros acc st; [reflexivity|].
  simpl. unfold bind.
  destruct item as [[program sc] expl].
  unfold persist_and_render, bind, subscript, insert_recommendation, modify,
    new_recommendation, ret, raise.
  destruct (p_id program); [|reflexivity].
  destruct (p_name program); [|reflexivity].
  destruct (p_description program); [|reflexivity].
  destruct (accepts _); [|reflexivity].
  rewrite IH. reflexivity.
Qed.

(** C1. When the [programs] table is empty, [get_recommendations] answers a
    request of any student of the datastore, for any [top_k], with the empty
    list; it raises nothing and leaves the state as it was. *)
Theorem get_recommendations_empty_catalog request st student_data :
  In student_data (students st) ->
  s_id student_data = student_id request ->
  programs st = [] ->
  get_recommendations request st = (inr [], st).
Proof.
  intros Hin Hid Hcat.
  destruct (filter_In_cons (fun s => String.eqb (s_id s) (student_id request))
              student_data (students st) Hin) as [found [others Hsel]].
  { rewrite Hid. apply String.eqb_refl. }
  unfold get_recommendations, handle, get_recommendations_body, bind,
    select_students_by_id, select_programs, gets, ret.
  rewrite Hsel, Hcat. reflexivity.
Qed.

(** C2, as the code has it.  [get_recommendations] never scores against a
    stale index: whatever index the engine object holds when the call
    starts, the response and the tables it leaves are the same.  A call that
    finds no student is answered 404, and a call that finds the student and
    an empty catalog is answered with the empty list; both return before
    fitting or scoring and leave the state, the engine's index included, as
    it was.  A call that finds the student and a non-empty catalog runs
    [fit] on the whole [programs] table as it is at that moment, before any
    scoring: when [fit] raises, the call is answered 500, nothing is scored
    and the state, the engine's index included, is as it was; when [fit]
    succeeds, the engine holds the new index from then on, and the response
    is built from what [recommend] returns on that new index. *)
Theorem get_recommendations_refits_before_scoring request st stale :
  fst (get_recommendations request (with_engine st stale))
    = fst (get_recommendations request st) /\
  same_tables (snd (get_recommendations request (with_engine st stale)))
              (snd (get_recommendations request st)) /\
  (filter (fun s => String.eqb (s_id s) (student_id request)) (students st) = [] ->
   get_recommendations request st
     = (inl (mkHTTPException 404 (Text "Student not found")), st)) /\
  (forall student_data others,
     filter (fun s => String.eqb (s_id s) (student_id request)) (students st)
       = student_data :: others ->
     match programs st with
     | [] => get_recommendations request st = (inr [], st)
     | _ :: _ =>
         match fit (programs st) with
         | inl e =>
             get_recommendations request st
               = (inl (mkHTTPException 500 (Str (EngineException e))), st)
         | inr index =>
             recommender_engine (snd (get_recommendations request st)) = index /\
             match recommend index student_data (top_k request) with
             | inl e =>
                 get_recommendations request st
                   = (inl (mkHTTPException 500 (Str (EngineException e))),
                      with_engine st index)
             | inr items =>
                 get_recommendations request st
                   = handle (recommendation_loop request items [])
                            (with_engine st index)
             end
         end
     end).
Proof.
  unfold get_recommendations, handle, get_recommendations_body, bind,
    select_students_by_id, select_programs, gets, raise, ret, same_tables,
    with_engine.
  simpl.
  destruct (filter _ (students st)) as [|student_data others] eqn:Hsel.
  - simpl. split; [reflexivity|]. split; [repeat split; simpl; congruence|].
    split; [reflexivity|]. intros; discriminate.
  - destruct (programs st) as [|p catalog] eqn:Hcat.
    + simpl. split; [reflexivity|]. split; [repeat split; simpl; congruence|].
      split; [intros; discriminate|]. intros; reflexivity.
    + unfold engine_fit, engine_recommend. simpl. rewrite ?Hcat.
      destruct (fit (p :: catalog)) as [e|index] eqn:Hfit.
      * simpl. split; [reflexivity|]. split; [repeat split; simpl; congruence|].
        split; [intros; discriminate|]. intros; reflexivity.
      * simpl. split; [reflexivity|]. split; [repeat split; reflexivity|].
        split; [intros; discriminate|].
        intros student_data' others' Heq.
        inversion Heq; subst; clear Heq.
        destruct (recommend index student_data' (top_k request)) as [e|items].
        -- split; reflexivity.
        -- pose proof (recommendation_loop_engine request items []
             (mkState (students st) (p :: catalog) (recommendations st)
                      (feedback st) index)) as Hengine.
           destruct (recommendation_loop request items [] _) as [[[h|e]|resp] st1];
             simpl in *; split; (assumption || reflexivity).
Qed.

(** C7. Every item of a successful response of [get_recommendations] is
    built from one triple of the engine's ranking on the current catalog, in
    order, and carries that triple's program identifier, name and
    description, the program's tags and skills (the value under the key, and
    the empty list when the program has no such key), and the triple's score
    and explanation. *)
Theorem get_recommendations_carries_display_data request st response st' :
  get_recommendations request st = (inr response, st') ->
  exists student_data items,
    In student_data (students st) /\
    s_id student_data = student_id request /\
    ranking (programs st) student_data (top_k request) = inr items /\
    Forall2 renders items response.
Proof.
  intros H. apply get_recommendations_ok in H.
  destruct H as [student_data [others [items [rows [Hsel [Hrank [Hrend _]]]]]]].
  exists student_data, items.
  assert (Hin : In student_data
            (filter (fun s => String.eqb (s_id s) (student_id request)) (students st)))
    by (rewrite Hsel; left; reflexivity).
  apply filter_In in Hin. destruct Hin as [Hin Heq].
  apply String.eqb_eq in Heq.
  repeat split; assumption.
Qed.

(** C8. A feedback submission with a rating below 1 or above 5 is answered
    with status 400, and the state, the [feedback] table included, is left
    as it was. *)
Theorem submit_feedback_rejects_rating sid fb st r :
  fb_rating fb = Some r ->
  (r < 1 \/ 5 < r)%Z ->
  submit_feedback sid fb st
    = (inl (mkHTTPException 400 (Text "Rating must be between 1 and 5")), st).
Proof.
  intros Hr Hout.
  unfold submit_feedback, handle, submit_feedback_body, bind.
  rewrite Hr.
  assert (Hb : ((r <? 1) || (5 <? r))%Z = true).
  { apply orb_true_iff. destruct Hout; [left|right]; apply Z.ltb_lt; assumption. }
  rewrite Hb. reflexivity.
Qed.

(** C9. A student-creation request whose email is the email of a student of
    the datastore is answered with status 400, and the state, the [students]
    table included, is left as it was: nothing is inserted. *)
Theorem create_student_rejects_known_email student st existing :
  In existing (students st) ->
  s_email existing = sp_email student ->
  create_student new_id student st
    = (inl (mkHTTPException 400 (Text "Student with this email already exists")), st).
Proof.
  intros Hin Hmail.
  destruct (filter_In_cons (fun s => String.eqb (s_email s) (sp_email student))
              existing (students st) Hin) as [found [others Hsel]].
  { rewrite Hmail. apply String.eqb_refl. }
  unfold create_student, handle, create_student_body, bind,
    select_students_by_email, gets, raise.
  rewrite Hsel. reflexivity.
Qed.

(** [create_student] keeps the emails of the [students] table distinct,
    whatever the request. *)
Lemma create_student_keeps_emails_distinct student st :
  NoDup (map s_email (students st)) ->
  NoDup (map s_email (students (snd (create_student new_id student st)))).
Proof.
  intros Hnd.
  unfold create_student, handle, create_student_body, bind,
    select_students_by_email, gets, raise, insert_student.
  destruct (filter _ (students st)) as [|found others] eqn:Hsel; simpl;
    [|assumption].
  rewrite map_app. simpl. apply NoDup_snoc; [assumption|].
  intros Hin. apply in_map_iff in Hin. destruct Hin as [s [Hs Hin]].
  assert (Hf : In s (filter (fun s => String.eqb (s_email s) (sp_email student))
                       (students st))).
  { apply filter_In. split; [assumption|]. rewrite Hs. apply String.eqb_refl. }
  rewrite Hsel in Hf. destruct Hf.
Qed.

(** C10. After a successful call of [get_recommendations] the
    [recommendations] table holds, after the rows it held before, one new
    row per item of the response, in the same order, each with the
    requesting student's identifier and the item's program identifier, score
    and explanation; the other tables are as before. *)
Theorem get_recommendations_persists_results request st response st' :
  get_recommendations request st = (inr response, st') ->
  exists rows,
    recommendations st' = recommendations st ++ rows /\
    Forall2 (persisted_as request) rows response /\
    List.length rows = List.length response /\
    students st' = students st /\ programs st' = programs st /\
    feedback st' = feedback st.
Proof.
  intros H. apply get_recommendations_ok in H.
  destruct H as [student_data [others [items [rows H]]]].
  destruct H as [_ [_ [_ [Hrows [Hs [Hp [Hf Hr]]]]]]].
  exists rows. repeat split; try assumption.
  eapply Forall2_length; eassumption.
Qed.

End ServiceProperties.

(** * Properties of the engine *)

Section EngineProperties.

Local Open Scope R_scope.

Variable cfg : Recommender.Config.

(** ** Sorting and truncation keep the elements they are given *)

Lemma insert_by_length {A} (before : A -> A -> bool) (x : A) (l : list A) :
  List.length (Recommender.insert_by before x l) = S (List.length l).
Proof.
  induction l as [|y l IH]; simpl; [reflexivity|].
  destruct (before x y); simpl; [reflexivity|]. rewrite IH; reflexivity.
Qed.

Lemma sort_by_length {A} (before : A -> A -> bool) (l : list A) :
  List.length (Recommender.sort_by before l) = List.length l.
Proof.
  induction l as [|x l IH]; simpl; [reflexivity|].
  rewrite insert_by_length, IH; reflexivity.
Qed.

Lemma insert_by_In {A} (before : A -> A -> bool) (x y : A) (l : list A) :
  In y (Recommender.insert_by before x l) -> y = x \/ In y l.
Proof.
  induction l as [|z l IH]; simpl.
  - intros [H|[]]; left; symmetry; assumption.
  - destruct (before x z); simpl.
    + intros [H|H]; [left; symmetry; assumption | right; assumption].
    + intros [H|H]; [right; left; assumption|].
      destruct (IH H) as [H'|H']; [left|right; right]; assumption.
Qed.

Lemma sort_by_In {A} (before : A -> A -> bool) (y : A) (l : list A) :
  In y (Recommender.sort_by before l) -> In y l.
Proof.
  induction l as [|x l IH]; simpl; [intros []|].
  intros H. apply insert_by_In in H. destruct H as [H|H].
  - left; symmetry; assumption.
  - right; apply IH; assumption.
Qed.

Lemma firstn_incl {A} (n : nat) (l : list A) (y : A) :
  In y (firstn n l) -> In y l.
Proof.
  revert l; induction n as [|n IH]; intros [|x l]; simpl; try intros [].
  - left; assumption.
  - right; apply IH; assumption.
Qed.

(** ** The indexer *)

Lemma key_programs_length catalog :
  forall seen keyed,
    Recommender.key_programs seen catalog = inr keyed ->
    List.length keyed = List.length catalog.
Proof.
  induction catalog as [|p rest IH]; simpl; intros seen keyed H.
  - inversion H; reflexivity.
  - destruct (p_id p) as [i|]; [|discriminate].
    destruct (existsb (String.eqb i) seen); [discriminate|].
    destruct (Recommender.key_programs (i :: seen) rest) as [e|keyed'] eqn:Hrest;
      [discriminate|].
    inversion H; subst; simpl. erewrite IH; [reflexivity|eassumption].
Qed.

Lemma fit_entries_length catalog index :
  Recommender.fit cfg catalog = inr index ->
  List.length (Recommender.entries index) = List.length catalog.
Proof.
  unfold Recommender.fit.
  destruct (Recommender.key_programs [] catalog) as [e|keyed] eqn:Hkeyed;
    [discriminate|].
  intros H; inversion H; subst; clear H.
  unfold Recommender.build_index; simpl.
  rewrite length_map. eapply key_programs_length; eassumption.
Qed.

(** The keyed records are the records of the catalog, each under its own
    identifier. *)
Lemma key_programs_In catalog :
  forall seen keyed i p,
    Recommender.key_programs seen catalog = inr keyed ->
    In (i, p) keyed -> In p catalog /\ p_id p = Some i.
Proof.
  induction catalog as [|q rest IH]; simpl; intros seen keyed i p H Hin.
  - inversion H; subst. destruct Hin.
  - destruct (p_id q) as [j|] eqn:Hj; [|discriminate].
    destruct (existsb (String.eqb j) seen); [discriminate|].
    destruct (Recommender.key_programs (j :: seen) rest) as [e|keyed'] eqn:Hrest;
      [discriminate|].
    inversion H; subst; clear H. destruct Hin as [Heq|Hin].
    + inversion Heq; subst. split; [left; reflexivity|assumption].
    + destruct (IH _ _ _ _ Hrest Hin) as [Hp Hid]. split; [right|]; assumption.
Qed.

(** Every program [recommend] returns is a record of the catalog the index
    was fitted on. *)
Lemma recommend_programs_from_catalog catalog index s k items :
  Recommender.fit cfg catalog = inr index ->
  Recommender.recommend cfg index s k = inr items ->
  Forall (fun item => In (fst (fst item)) catalog) items.
Proof.
  unfold Recommender.fit, Recommender.recommend.
  destruct (Recommender.key_programs [] catalog) as [e|keyed] eqn:Hkeyed;
    [discriminate|].
  intros Hfit; inversion Hfit; subst; clear Hfit.
  destruct (k <=? 0)%Z; [discriminate|].
  intros H; inversion H; subst; clear H.
  apply Forall_map. apply Forall_forall. intros es Hes. simpl.
  apply firstn_incl, sort_by_In in Hes.
  apply in_map_iff in Hes. destruct Hes as [e [Hes He]]. subst es. simpl.
  unfold Recommender.build_index in He; simpl in He.
  apply in_map_iff in He. destruct He as [[i p] [He Hkp]]. subst e. simpl.
  eapply key_programs_In; eassumption.
Qed.

(** Fitting on the empty catalog gives an index with an empty vocabulary and
    no vectors. *)
Lemma fit_empty_catalog :
  exists index,
    Recommender.fit cfg [] = inr index /\
    Recommender.vocabulary index = [] /\ Recommender.entries index = [].
Proof. eexists; split; [reflexivity|]. split; reflexivity. Qed.

(** Reading a catalog stops with [ConflictError] at a record whose
    identifier was seen, when the records before it all have one. *)
Lemma key_programs_conflict later after i :
  p_id later = Some i ->
  forall before seen,
    Forall (fun p => p_id p <> None) before ->
    In i seen \/ In (Some i) (map p_id before) ->
    Recommender.key_programs seen (before ++ later :: after) = inl ConflictError.
Proof.
  intros Hlater.
  induction before as [|p before IH]; simpl; intros seen Hvalid Hseen.
  - rewrite Hlater.
    destruct Hseen as [Hseen|[]].
    assert (Hex : existsb (String.eqb i) seen = true).
    { apply existsb_exists. exists i. split; [assumption|apply String.eqb_refl]. }
    rewrite Hex; reflexivity.
  - inversion Hvalid as [|? ? Hp Hrest]; subst.
    destruct (p_id p) as [j|] eqn:Hj; [|contradiction Hp; reflexivity].
    destruct (existsb (String.eqb j) seen); [reflexivity|].
    rewrite IH; [reflexivity|assumption|].
    destruct Hseen as [Hseen|[Heq|Hin]].
    + left; right; assumption.
    + inversion Heq; subst. left; left; reflexivity.
    + right; assumption.
Qed.

(** ** Vectors *)

Lemma sum_squares_nonneg u : 0 <= Recommender.sum_squares u.
Proof.
  unfold Recommender.sum_squares.
  induction u as [|x u IH]; simpl; [lra|]. nra.
Qed.

Lemma dot_nonneg u :
  forall v, Forall (fun x => 0 <= x) u -> Forall (fun x => 0 <= x) v ->
            0 <= Recommender.dot u v.
Proof.
  unfold Recommender.dot.
  induction u as [|x u IH]; intros [|y v] Hu Hv; simpl; try lra.
  inversion Hu; inversion Hv; subst.
  specialize (IH v H2 H6). nra.
Qed.

(** The dot product is at most the mean of the two sums of squares. *)
Lemma dot_le_mean_squares u :
  forall v, Recommender.dot u v
            <= (Recommender.sum_squares u + Recommender.sum_squares v) / 2.
Proof.
  induction u as [|x u IH]; intros [|y v].
  - unfold Recommender.dot, Recommender.sum_squares; simpl; lra.
  - pose proof (sum_squares_nonneg (y :: v)).
    unfold Recommender.dot, Recommender.sum_squares in *; simpl in *; lra.
  - pose proof (sum_squares_nonneg (x :: u)).
    unfold Recommender.dot, Recommender.sum_squares in *; simpl in *; lra.
  - specialize (IH v).
    assert (Hxy : x * y <= (x * x + y * y) / 2).
    { pose proof (Rle_0_sqr (x - y)) as Hsq. unfold Rsqr in Hsq. lra. }
    unfold Recommender.dot, Recommender.sum_squares in *; simpl in *.
    lra.
Qed.

Lemma sum_squares_scaled u c :
  Recommender.sum_squares (map (fun x => x / c) u)
  = Recommender.sum_squares u / (c * c).
Proof.
  unfold Recommender.sum_squares.
  induction u as [|x u IH]; simpl.
  - unfold Rdiv; rewrite Rmult_0_l; reflexivity.
  - rewrite IH. unfold Rdiv.
    destruct (Req_dec c 0) as [Hc|Hc].
    + subst. rewrite Rmult_0_l, Rinv_0. lra.
    + rewrite Rinv_mult. lra.
Qed.

(** Normalizing a vector of non-negative weights gives one of non-negative
    weights and norm at most 1. *)
Lemma normalize_sub_unit u :
  Forall (fun x => 0 <= x) u -> sub_unit (Recommender.normalize u).
Proof.
  intros Hu. unfold sub_unit, Recommender.normalize, Recommender.l2_norm.
  pose proof (sum_squares_nonneg u) as Hss.
  destruct (Rlt_dec 0 (sqrt (Recommender.sum_squares u))) as [Hpos|Hzero].
  - split.
    + apply Forall_map. eapply Forall_impl; [|exact Hu].
      intros x Hx. simpl. apply Rle_mult_inv_pos; assumption.
    + rewrite sum_squares_scaled, sqrt_sqrt by assumption.
      assert (Hne : Recommender.sum_squares u <> 0).
      { intros H0. rewrite H0, sqrt_0 in Hpos. lra. }
      unfold Rdiv. rewrite Rinv_r by assumption. lra.
  - split; [assumption|].
    assert (H0 : sqrt (Recommender.sum_squares u) = 0)
      by (pose proof (sqrt_pos (Recommender.sum_squares u)); lra).
    apply sqrt_eq_0 in H0; [lra|assumption].
Qed.

(** The cosine of two such vectors is a number of [[0, 1]]. *)
Lemma dot_sub_unit u v :
  sub_unit u -> sub_unit v -> 0 <= Recommender.dot u v <= 1.
Proof.
  intros [Hu Hu1] [Hv Hv1]. split.
  - apply dot_nonneg; assumption.
  - pose proof (dot_le_mean_squares u v). lra.
Qed.

Lemma idf_nonneg n d : (d <= n)%nat -> 0 <= Recommender.idf n d.
Proof.
  intros Hle. unfold Recommender.idf.
  pose proof (pos_INR d) as Hd. apply le_INR in Hle.
  assert (H1 : 1 <= (1 + INR n) / (1 + INR d)).
  { apply Rmult_le_reg_r with (r := 1 + INR d); [lra|].
    unfold Rdiv. rewrite Rmult_assoc, Rinv_l by lra. lra. }
  destruct (Req_dec ((1 + INR n) / (1 + INR d)) 1) as [Heq|Hne].
  - rewrite Heq, ln_1. lra.
  - assert (Hlt : ln 1 < ln ((1 + INR n) / (1 + INR d)))
      by (apply ln_increasing; lra).
    rewrite ln_1 in Hlt. lra.
Qed.

Lemma df_le t documents :
  (Recommender.df t documents <= List.length documents)%nat.
Proof.
  unfold Recommender.df.
  induction documents as [|d ds IH]; simpl; [lia|].
  destruct (existsb (String.eqb t) d); simpl; lia.
Qed.

Lemma tfidf_nonneg vocab :
  forall idfs document,
    Forall (fun x => 0 <= x) idfs ->
    Forall (fun x => 0 <= x) (Recommender.tfidf vocab idfs document).
Proof.
  unfold Recommender.tfidf.
  induction vocab as [|t vocab IH]; intros [|w idfs] document Hidf; simpl;
    try constructor.
  - inversion Hidf; subst. simpl.
    apply Rmult_le_pos; [apply pos_INR|assumption].
  - inversion Hidf; subst. apply IH; assumption.
Qed.

Lemma build_index_well_formed keyed :
  well_formed (Recommender.build_index cfg keyed).
Proof.
  unfold well_formed, Recommender.build_index; simpl.
  set (documents := map (fun kp => Recommender.program_document cfg (snd kp)) keyed).
  set (vocab := nodup string_dec (List.concat documents)).
  assert (Hidf : Forall (fun x => 0 <= x)
            (map (fun t => Recommender.idf (List.length documents)
                             (Recommender.df t documents)) vocab)).
  { apply Forall_map. apply Forall_forall. intros t _.
    apply idf_nonneg, df_le. }
  split; [assumption|].
  apply Forall_map. apply Forall_forall. intros kp _. simpl.
  apply normalize_sub_unit, tfidf_nonneg. assumption.
Qed.

Lemma fit_well_formed catalog index :
  Recommender.fit cfg catalog = inr index -> well_formed index.
Proof.
  unfold Recommender.fit.
  destruct (Recommender.key_programs [] catalog); [discriminate|].
  intros H; inversion H; subst. apply build_index_well_formed.
Qed.

(** The scores [recommend] returns on a well-formed index. *)
Lemma recommend_scores_bounded index s k items :
  well_formed index ->
  Recommender.recommend cfg index s k = inr items ->
  Forall (fun item => 0 <= snd (fst item) <= 1) items.
Proof.
  intros [Hidf Hentries]. unfold Recommender.recommend.
  destruct (k <=? 0)%Z; [discriminate|].
  intros H; inversion H; subst; clear H.
  apply Forall_map. apply Forall_forall. intros es Hes. simpl.
  apply firstn_incl, sort_by_In in Hes.
  apply in_map_iff in Hes. destruct Hes as [e [Hes He]]. subst es. simpl.
  unfold Recommender.cosine. apply dot_sub_unit.
  - unfold Recommender.student_vector, Recommender.feature_vector; simpl.
    apply normalize_sub_unit, tfidf_nonneg. assumption.
  - rewrite Forall_forall in Hentries. apply Hentries. assumption.
Qed.

(** The check of [top_k] comes first in [recommend]. *)
Lemma recommend_rejects_top_k_first index s k :
  (k <= 0)%Z ->
  Recommender.recommend cfg index s k = inl InvalidArgumentError.
Proof.
  intros Hk. unfold Recommender.recommend.
  apply Z.leb_le in Hk. rewrite Hk. reflexivity.
Qed.

(** ** The claims about [fit] and [recommend] *)

(** C3. On the index fitted on a catalog of N programs, [recommend] with
    [top_k >= 1] returns, for every student, exactly [min(top_k, N)]
    results. *)
Theorem recommend_returns_min_top_k catalog index s k :
  Recommender.fit cfg catalog = inr index ->
  (1 <= k)%Z ->
  exists items,
    Recommender.recommend cfg index s k = inr items /\
    List.length items = Nat.min (Z.to_nat k) (List.length catalog).
Proof.
  intros Hfit Hk. unfold Recommender.recommend.
  destruct (Z.leb_spec k 0) as [Hle|_]; [lia|].
  eexists; split; [reflexivity|].
  rewrite length_map, length_firstn, sort_by_length, length_map.
  rewrite (fit_entries_length _ Hfit). reflexivity.
Qed.

(** C4. [recommend] with [top_k <= 0] signals [InvalidArgumentError], for
    every index and every student; it returns no result sequence. *)
Theorem recommend_rejects_nonpositive_top_k index s k :
  (k <= 0)%Z ->
  Recommender.recommend cfg index s k = inl InvalidArgumentError /\
  forall items, Recommender.recommend cfg index s k <> inr items.
Proof.
  intros Hk. rewrite (recommend_rejects_top_k_first index s Hk).
  split; [reflexivity|]. intros items; discriminate.
Qed.

(** C5. [fit] on a catalog in which a record has the identifier of an
    earlier record signals [ConflictError] (and returns no index) when the
    records before that later record all carry an identifier, so that the
    later record is reached. *)
Theorem fit_rejects_duplicate_identifier before later after i :
  Forall (fun p => p_id p <> None) before ->
  In (Some i) (map p_id before) ->
  p_id later = Some i ->
  Recommender.fit cfg (before ++ later :: after) = inl ConflictError.
Proof.
  intros Hvalid Hin Hlater. unfold Recommender.fit.
  rewrite (@key_programs_conflict later after i Hlater before [] Hvalid);
    [reflexivity|right; assumption].
Qed.

End EngineProperties.

(** * The service over the TF-IDF engine *)

Section ScoredService.

Variable cfg : Recommender.Config.
Context {response_model : ResponseModel (engine_class := tfidf_engine cfg)}.

(** The ranking a call is answered from has its scores in [[0, 1]]. *)
Lemma ranking_scores_bounded catalog student_data k items :
  ranking (engine_class := tfidf_engine cfg) catalog student_data k = inr items ->
  Forall (fun item => (0 <= snd (fst item) <= 1)%R) items.
Proof.
  unfold ranking. destruct catalog as [|p catalog].
  - intros H; inversion H; constructor.
  - simpl.
    destruct (Recommender.fit cfg (p :: catalog)) as [e|index] eqn:Hfit;
      [discriminate|].
    intros Hrec. eapply recommend_scores_bounded; [|exact Hrec].
    eapply fit_well_formed; eassumption.
Qed.

(** C6. Every recommendation that [get_recommendations] returns carries a
    score of the closed interval [[0, 1]]. *)
Theorem get_recommendations_scores_bounded request
    (st : State (engine_class := tfidf_engine cfg)) response st' :
  get_recommendations request st = (inr response, st') ->
  Forall (fun r : Recommendation (engine_class := tfidf_engine cfg) =>
            (0 <= score r <= 1)%R) response.
Proof.
  intros H. apply get_recommendations_ok in H.
  destruct H as [student_data [others [items [rows [_ [Hrank [Hrend _]]]]]]].
  apply ranking_scores_bounded in Hrank.
  induction Hrend as [|item r items response Hr Hrest IH]; constructor.
  - inversion Hrank; subst.
    destruct item as [[program sc] expl]. unfold renders in Hr.
    destruct Hr as (_ & _ & _ & _ & _ & Hscore & _).
    rewrite Hscore. assumption.
  - apply IH. inversion Hrank; assumption.
Qed.

(** How the service passes on the engine's refusal of [top_k <= 0]: with
    the student found and a catalog [fit] accepts, the call is answered with
    status 500 and inserts no row; the engine holds the new index. *)
Lemma get_recommendations_nonpositive_top_k request
    (st : State (engine_class := tfidf_engine cfg)) student_data others index :
  filter (fun s => String.eqb (s_id s) (student_id request)) (students st)
    = student_data :: others ->
  programs st <> [] ->
  Recommender.fit cfg (programs st) = inr index ->
  (top_k request <= 0)%Z ->
  get_recommendations request st
    = (inl (mkHTTPException 500 (Str (EngineException InvalidArgumentError))),
       with_engine st index).
Proof.
  intros Hsel Hne Hfit Hk.
  unfold get_recommendations, handle, get_recommendations_body, bind,
    select_students_by_id, select_programs, gets, engine_fit, engine_recommend.
  rewrite Hsel. destruct (programs st) as [|p catalog] eqn:Hcat;
    [contradiction Hne; reflexivity|].
  simpl. rewrite Hfit. simpl.
  rewrite (recommend_rejects_top_k_first cfg index student_data Hk).
  unfold with_engine. rewrite Hcat. reflexivity.
Qed.

End ScoredService.

(** * The properties at work on the sample data *)

Lemma get_recommendations_empty_catalog_witness :
  In Sample.student (students Sample.state_without_programs) /\
  programs Sample.state_without_programs = [] /\
  get_recommendations Sample.request Sample.state_without_programs
    = (inr [], Sample.state_without_programs).
Proof.
  split; [left; reflexivity|]. split; [reflexivity|].
  apply (@get_recommendations_empty_catalog (tfidf_engine Sample.config) Sample.models
           Sample.request Sample.state_without_programs Sample.student).
  - left; reflexivity.
  - reflexivity.
  - reflexivity.
Defined.

Lemma get_recommendations_refits_before_scoring_witness :
  filter (fun s => String.eqb (s_id s) (student_id Sample.request))
         (students Sample.state_one_program) = [Sample.student] /\
  programs Sample.state_one_program = [Sample.p1] /\
  fit (RecommenderEngine := tfidf_engine Sample.config)
      (programs Sample.state_one_program) = inr Sample.index_one /\
  recommender_engine Sample.state_one_program = Sample.empty_index /\
  recommender_engine
    (snd (get_recommendations Sample.request Sample.state_one_program))
    = Sample.index_one.
Proof.
  split; [reflexivity|]. split; [reflexivity|]. split; [reflexivity|].
  split; [reflexivity|].
  exact (proj1
    (proj2 (proj2 (proj2
       (@get_recommendations_refits_before_scoring
          (tfidf_engine Sample.config) Sample.models Sample.request
          Sample.state_one_program Sample.empty_index)))
       Sample.student [] eq_refl)).
Defined.

Lemma recommend_returns_min_top_k_witness :
  Recommender.fit Sample.config [Sample.p1; Sample.p2] = inr Sample.index_two /\
  exists items,
    Recommender.recommend Sample.config Sample.index_two Sample.student 1
      = inr items /\
    List.length items = 1%nat.
Proof.
  split; [reflexivity|].
  apply (@recommend_returns_min_top_k Sample.config [Sample.p1; Sample.p2]
           Sample.index_two Sample.student 1%Z).
  - reflexivity.
  - lia.
Defined.

Lemma recommend_rejects_nonpositive_top_k_witness :
  Recommender.recommend Sample.config Sample.index_two Sample.student 0
    = inl InvalidArgumentError /\
  forall items,
    Recommender.recommend Sample.config Sample.index_two Sample.student 0
      <> inr items.
Proof.
  apply (@recommend_rejects_nonpositive_top_k Sample.config Sample.index_two
           Sample.student 0%Z).
  lia.
Defined.

Lemma fit_rejects_duplicate_identifier_witness :
  Recommender.fit Sample.config [Sample.p1; Sample.p2; Sample.p1]
    = inl ConflictError.
Proof.
  apply (@fit_rejects_duplicate_identifier Sample.config
           [Sample.p1; Sample.p2] Sample.p1 [] "p1").
  - repeat constructor; discriminate.
  - left; reflexivity.
  - reflexivity.
Defined.

Lemma get_recommendations_scores_bounded_witness :
  get_recommendations Sample.request Sample.state_one_program
    = (inr Sample.response_one, Sample.state_after_one) /\
  List.length Sample.response_one = 1%nat /\
  Forall (fun r : Recommendation (engine_class := tfidf_engine Sample.config) =>
            (0 <= score r <= 1)%R) Sample.response_one.
Proof.
  split; [reflexivity|]. split; [reflexivity|].
  apply (@get_recommendations_scores_bounded Sample.config Sample.models Sample.request
           Sample.state_one_program Sample.response_one Sample.state_after_one).
  reflexivity.
Defined.

Lemma get_recommendations_carries_display_data_witness :
  get_recommendations Sample.request Sample.state_one_program
    = (inr Sample.response_one, Sample.state_after_one) /\
  map program_id Sample.response_one = ["p1"] /\
  map program_name Sample.response_one = ["Data Analytics"] /\
  map program_description Sample.response_one = ["data analytics program"] /\
  map tags Sample.response_one = [Some ["data"; "python"]] /\
  map skills Sample.response_one = [Some ["sql"]] /\
  exists student_data items,
    In student_data (students Sample.state_one_program) /\
    s_id student_data = student_id Sample.request /\
    ranking (programs Sample.state_one_program) student_data
            (top_k Sample.request) = inr items /\
    Forall2 renders items Sample.response_one.
Proof.
  split; [reflexivity|]. split; [reflexivity|]. split; [reflexivity|].
  split; [reflexivity|]. split; [reflexivity|]. split; [reflexivity|].
  apply (@get_recommendations_carries_display_data (tfidf_engine Sample.config)
           Sample.models Sample.request Sample.state_one_program
           Sample.response_one Sample.state_after_one).
  reflexivity.
Defined.

Lemma submit_feedback_rejects_rating_witness :
  submit_feedback "s1" Sample.feedback_rating_6 Sample.state_one_program
    = (inl (mkHTTPException 400 (Text "Rating must be between 1 and 5")),
       Sample.state_one_program).
Proof.
  apply (@submit_feedback_rejects_rating (tfidf_engine Sample.config) "s1"
           Sample.feedback_rating_6 Sample.state_one_program 6%Z).
  - reflexivity.
  - right; lia.
Defined.

Lemma create_student_rejects_known_email_witness :
  create_student Sample.new_id Sample.profile Sample.state_one_program
    = (inl (mkHTTPException 400 (Text "Student with this email already exists")),
       Sample.state_one_program).
Proof.
  apply (@create_student_rejects_known_email (tfidf_engine Sample.config)
           Sample.new_id Sample.profile Sample.state_one_program Sample.student).
  - left; reflexivity.
  - reflexivity.
Defined.

Lemma get_recommendations_persists_results_witness :
  get_recommendations Sample.request Sample.state_one_program
    = (inr Sample.response_one, Sample.state_after_one) /\
  exists rows,
    recommendations Sample.state_after_one
      = recommendations Sample.state_one_program ++ rows /\
    Forall2 (persisted_as Sample.request) rows Sample.response_one /\
    List.length rows = List.length Sample.response_one /\
    students Sample.state_after_one = students Sample.state_one_program /\
    programs Sample.state_after_one = programs Sample.state_one_program /\
    feedback Sample.state_after_one = feedback Sample.state_one_program.
Proof.
  split; [reflexivity|].
  apply (@get_recommendations_persists_results (tfidf_engine Sample.config) Sample.models
           Sample.request Sample.state_one_program Sample.response_one
           Sample.state_after_one).
  reflexivity.
Defined.

(** C2, as stated, fails on a call that meets an empty catalog: the call
    answers with the empty list and returns before [fit]; the engine keeps
    the index of the earlier catalog, which is not the index of the current
    one. *)
Lemma get_recommendations_no_refit_on_empty_catalog :
  fst (get_recommendations Sample.request Sample.state_stale_index) = inr [] /\
  fit (RecommenderEngine := tfidf_engine Sample.config)
      (programs Sample.state_stale_index) = inr Sample.empty_index /\
  recommender_engine
    (snd (get_recommendations Sample.request Sample.state_stale_index))
    = Sample.index_one /\
  Sample.index_one <> Sample.empty_index.
Proof.
  split; [reflexivity|]. split; [reflexivity|]. split; [reflexivity|].
  intros Heq. apply (f_equal Recommender.vocabulary) in Heq.
  discriminate Heq.
Qed.

(** * Further properties of [get_recommendations] *)

Section RecommendationsOutcomes.

Context {engine_class : RecommenderEngine}.
Context {response_model : ResponseModel}.

Lemma filter_none {A} (f : A -> bool) (l : list A) :
  (forall x, In x l -> f x = false) -> filter f l = [].
Proof.
  induction l as [|x l IH]; simpl; intros H; [reflexivity|].
  rewrite (H x) by (left; reflexivity).
  apply IH. intros y Hy. apply H. right; assumption.
Qed.

(** On triples it gets through, the loop succeeds: it inserts one row per
    triple and returns one item per triple. *)
Lemma recommendation_loop_renderable request items :
  forall acc st,
    forallb is_renderable items = true ->
    recommendation_loop request items acc st
    = (inr (acc ++ map recommendation_of items),
       mkState (students st) (programs st)
               (recommendations st ++ map (row_of request) items)
               (feedback st) (recommender_engine st)).
Proof.
  induction items as [|item rest IH]; intros acc st Hall.
  - simpl. unfold ret. rewrite !app_nil_r. destruct st; reflexivity.
  - simpl in Hall. apply andb_true_iff in Hall. destruct Hall as [Hitem Hrest].
    destruct item as [[program sc] expl].
    unfold is_renderable, recommendation_of in Hitem; simpl in Hitem.
    simpl. unfold bind, persist_and_render, bind, subscript,
      insert_recommendation, modify, new_recommendation, get_default, ret, raise.
    unfold recommendation_of, row_of; simpl.
    destruct (p_id program) as [pid|]; [|discriminate].
    destruct (p_name program) as [name|]; [|discriminate].
    destruct (p_description program) as [description|]; [|discriminate].
    rewrite Hitem.
    rewrite IH by assumption. simpl.
    rewrite <- !app_assoc. reflexivity.
Qed.

(** At the first triple it does not get through, the loop raises: the rows
    of the triples before it are in the table, and so is its own row when
    its program has the key [id]. *)
Lemma recommendation_loop_stops request done item rest :
  forall acc st,
    forallb is_renderable done = true ->
    is_renderable item = false ->
    recommendation_loop request (done ++ item :: rest) acc st
    = (inl (Other (failure_of item)),
       mkState (students st) (programs st)
               (recommendations st ++ map (row_of request) done
                ++ match p_id (fst (fst item)) with
                   | Some _ => [row_of request item]
                   | None => []
                   end)
               (feedback st) (recommender_engine st)).
Proof.
  induction done as [|d done IH]; intros acc st Hdone Hitem.
  - destruct item as [[program sc] expl].
    unfold is_renderable, recommendation_of in Hitem; simpl in Hitem.
    simpl. unfold bind, persist_and_render, bind, subscript,
      insert_recommendation, modify, new_recommendation, get_default, ret, raise.
    unfold failure_of, row_of; simpl.
    destruct (p_id program) as [pid|].
    + destruct (p_name program) as [name|]; simpl; [|reflexivity].
      destruct (p_description program) as [description|]; [|reflexivity].
      rewrite Hitem. reflexivity.
    + rewrite app_nil_r. destruct st; reflexivity.
  - simpl in Hdone. apply andb_true_iff in Hdone. destruct Hdone as [Hd Hdone].
    destruct d as [[program sc] expl].
    unfold is_renderable, recommendation_of in Hd; simpl in Hd.
    simpl. unfold bind at 1. unfold persist_and_render, bind, subscript,
      insert_recommendation, modify, new_recommendation, get_default, ret, raise.
    destruct (p_id program) as [pid|] eqn:Hpid; [|discriminate].
    destruct (p_name program) as [name|]; [|discriminate].
    destruct (p_description program) as [description|]; [|discriminate].
    rewrite Hd.
    rewrite IH by assumption. simpl.
    unfold row_of; simpl. rewrite ?Hpid. simpl.
    rewrite <- !app_assoc. reflexivity.
Qed.

(** Whatever the loop does, it only appends rows of the requesting student
    to [recommendations], and touches nothing else. *)
Lemma recommendation_loop_appends request items :
  forall acc st,
    exists rows,
      snd (recommendation_loop request items acc st)
      = mkState (students st) (programs st) (recommendations st ++ rows)
                (feedback st) (recommender_engine st) /\
      Forall (fun row => r_student_id row = student_id request /\
                         r_algorithm row = "content-based") rows.
Proof.
  induction items as [|item rest IH]; intros acc st.
  - exists []. rewrite app_nil_r. split; [destruct st; reflexivity|constructor].
  - simpl. unfold bind at 1.
    destruct item as [[program sc] expl].
    unfold persist_and_render, bind, subscript, insert_recommendation, modify,
      ret, raise.
    destruct (p_id program) as [pid|].
    2:{ exists []. rewrite app_nil_r. split; [destruct st; reflexivity|constructor]. }
    set (row := mkRecommendationRow (student_id request) pid sc expl "content-based").
    destruct (p_name program) as [name|].
    2:{ exists [row]. split; [reflexivity|]. repeat constructor. }
    destruct (p_description program) as [description|].
    2:{ exists [row]. split; [reflexivity|]. repeat constructor. }
    unfold new_recommendation, ret, raise.
    destruct (accepts _).
    2:{ exists [row]. split; [reflexivity|]. repeat constructor. }
    match goal with
    | |- context [recommendation_loop request rest ?a ?s] =>
        destruct (IH a s) as [rows [Hst Hrows]]
    end.
    exists (row :: rows). split.
    + rewrite Hst. simpl. rewrite <- app_assoc. reflexivity.
    + constructor; [split; reflexivity|assumption].
Qed.

(** Appending no row. *)
Lemma appends_nothing request (table : list RecommendationRow) :
  exists rows,
    table = table ++ rows /\
    Forall (fun row => r_student_id row = student_id request /\
                       r_algorithm row = "content-based") rows.
Proof. exists (@nil _). rewrite app_nil_r. split; [reflexivity|constructor]. Qed.

(** X1. A request whose [student_id] is the identifier of no row of
    [students] is answered with status 404, whatever the catalog and
    [top_k]; the state is left as it was. *)
Theorem get_recommendations_unknown_student request st :
  (forall s, In s (students st) -> s_id s <> student_id request) ->
  get_recommendations request st
    = (inl (mkHTTPException 404 (Text "Student not found")), st).
Proof.
  intros Hnone.
  unfold get_recommendations, handle, get_recommendations_body, bind,
    select_students_by_id, gets, raise.
  rewrite filter_none; [reflexivity|].
  intros s Hs. apply String.eqb_neq. apply Hnone; assumption.
Qed.

(** X2. When the engine refuses to fit the catalog or to rank, the call is
    answered with status 500 carrying the engine's exception, and no table
    is changed. *)
Theorem get_recommendations_engine_failure request st student_data others e :
  filter (fun s => String.eqb (s_id s) (student_id request)) (students st)
    = student_data :: others ->
  ranking (programs st) student_data (top_k request) = inl e ->
  fst (get_recommendations request st)
    = inl (mkHTTPException 500 (Str (EngineException e))) /\
  same_tables (snd (get_recommendations request st)) st.
Proof.
  intros Hsel Hrank.
  unfold get_recommendations, handle, get_recommendations_body, bind,
    select_students_by_id, select_programs, gets, engine_fit, engine_recommend,
    same_tables.
  rewrite Hsel. unfold ranking in Hrank.
  destruct (programs st) as [|p catalog] eqn:Hcat; [discriminate|].
  destruct (fit (p :: catalog)) as [e'|index].
  - inversion Hrank; subst. simpl. rewrite Hcat. repeat split; reflexivity.
  - simpl. rewrite Hrank. simpl. rewrite Hcat. repeat split; reflexivity.
Qed.

(** X3. When the loop gets through every triple of the ranking (its program
    has the keys [id], [name] and [description], and the response model
    accepts the arguments built from it), the call succeeds: the response is
    one item per triple of the ranking, in order, built from the values under
    these keys and under [tags] and [skills] (the empty list when such a key
    is absent), and [recommendations] gains exactly the rows of these
    triples. *)
Theorem get_recommendations_complete_ranking request st student_data others items :
  filter (fun s => String.eqb (s_id s) (student_id request)) (students st)
    = student_data :: others ->
  ranking (programs st) student_data (top_k request) = inr items ->
  forallb is_renderable items = true ->
  fst (get_recommendations request st) = inr (map recommendation_of items) /\
  recommendations (snd (get_recommendations request st))
    = recommendations st ++ map (row_of request) items.
Proof.
  intros Hsel Hrank Hall.
  unfold get_recommendations, handle, get_recommendations_body, bind,
    select_students_by_id, select_programs, gets, engine_fit, engine_recommend,
    ret.
  rewrite Hsel. unfold ranking in Hrank.
  destruct (programs st) as [|p catalog] eqn:Hcat.
  - inversion Hrank; subst. simpl. rewrite app_nil_r. split; reflexivity.
  - destruct (fit (p :: catalog)) as [e'|index]; [discriminate|].
    simpl. rewrite Hrank.
    rewrite recommendation_loop_renderable by assumption.
    simpl. split; reflexivity.
Qed.

(** X4. There is no rollback: at the first triple of the ranking the loop
    does not get through, the call is answered with status 500, for the
    [KeyError] of the first of the keys [id], [name], [description] its
    program lacks, or else for the validation error of the response model;
    the rows inserted up to then stay in [recommendations]: those of the
    triples before it, and its own when its program has an [id]. *)
Theorem get_recommendations_incomplete_program request st student_data others
    done item rest :
  filter (fun s => String.eqb (s_id s) (student_id request)) (students st)
    = student_data :: others ->
  ranking (programs st) student_data (top_k request)
    = inr (done ++ item :: rest) ->
  forallb is_renderable done = true ->
  is_renderable item = false ->
  fst (get_recommendations request st)
    = inl (mkHTTPException 500 (Str (failure_of item))) /\
  recommendations (snd (get_recommendations request st))
    = recommendations st ++ map (row_of request) done
      ++ match p_id (fst (fst item)) with
         | Some _ => [row_of request item]
         | None => []
         end.
Proof.
  intros Hsel Hrank Hdone Hitem.
  unfold get_recommendations, handle, get_recommendations_body, bind,
    select_students_by_id, select_programs, gets, engine_fit, engine_recommend,
    ret.
  rewrite Hsel. unfold ranking in Hrank.
  destruct (programs st) as [|p catalog] eqn:Hcat.
  - inversion Hrank as [Hnil]. destruct done; discriminate Hnil.
  - destruct (fit (p :: catalog)) as [e'|index]; [discriminate|].
    simpl. rewrite Hrank.
    rewrite recommendation_loop_stops by assumption.
    simpl. split; reflexivity.
Qed.

(** The effect of [get_recommendations] on the tables, whatever its
    outcome. *)
Lemma get_recommendations_frame request st :
  students (snd (get_recommendations request st)) = students st /\
  programs (snd (get_recommendations request st)) = programs st /\
  feedback (snd (get_recommendations request st)) = feedback st /\
  exists rows,
    recommendations (snd (get_recommendations request st))
      = recommendations st ++ rows /\
    Forall (fun row => r_student_id row = student_id request /\
                       r_algorithm row = "content-based") rows.
Proof.
  unfold get_recommendations, handle, get_recommendations_body, bind,
    select_students_by_id, select_programs, gets, engine_fit, engine_recommend,
    ret, raise.
  destruct (filter _ (students st)) as [|student_data others];
    [simpl; auto using appends_nothing|].
  destruct (programs st) as [|p catalog] eqn:Hcat;
    [simpl; auto using appends_nothing|].
  destruct (fit (p :: catalog)) as [e|index];
    [simpl; auto using appends_nothing|].
  simpl.
  destruct (recommend index student_data (top_k request)) as [e|items];
    [simpl; auto using appends_nothing|].
  match goal with
  | |- context [recommendation_loop request items [] ?s] =>
      destruct (recommendation_loop_appends request items [] s) as [rows [Hst Hrows]];
      destruct (recommendation_loop request items [] s) as [[[h|e]|resp] st1]
  end; simpl in *; subst st1; simpl.
  all: split; [reflexivity|]; split; [congruence|]; split; [reflexivity|].
  all: exists rows; split; [reflexivity|assumption].
Qed.

(** X5. Whatever its outcome, a call of [get_recommendations] leaves
    [students], [programs] and [feedback] as they were and only appends to
    [recommendations]; every row it appends carries the request's
    [student_id] and the algorithm ["content-based"]. *)
Theorem get_recommendations_only_appends request st :
  students (snd (get_recommendations request st)) = students st /\
  programs (snd (get_recommendations request st)) = programs st /\
  feedback (snd (get_recommendations request st)) = feedback st /\
  exists rows,
    recommendations (snd (get_recommendations request st))
      = recommendations st ++ rows /\
    Forall (fun row => r_student_id row = student_id request /\
                       r_algorithm row = "content-based") rows.
Proof. exact (get_recommendations_frame request st). Qed.

End RecommendationsOutcomes.

(** * Properties of the student endpoints *)

Section StudentProperties.

Context {engine_class : RecommenderEngine}.
Variable new_id : nat -> string.

(** A successful [create_student], taken apart: no row had the email, and
    the new row is appended with the identifier the datastore assigns. *)
Lemma create_student_ok student st row st' :
  create_student new_id student st = (inr row, st') ->
  (forall s, In s (students st) -> s_email s <> sp_email student) /\
  row = mkStudent (new_id (List.length (students st))) (sp_name student)
                  (sp_email student) (sp_interests student) (sp_grades student) /\
  st' = mkState (students st ++ [row]) (programs st) (recommendations st)
                (feedback st) (recommender_engine st).
Proof.
  unfold create_student, handle, create_student_body, bind,
    select_students_by_email, gets, raise, insert_student.
  destruct (filter _ (students st)) as [|found others] eqn:Hsel; [|discriminate].
  intros H; inversion H; subst; clear H.
  split; [|split; reflexivity].
  intros s Hs Heq.
  assert (Hin : In s (filter (fun s => String.eqb (s_email s) (sp_email student))
                        (students st))).
  { apply filter_In. split; [assumption|]. rewrite Heq. apply String.eqb_refl. }
  rewrite Hsel in Hin. destruct Hin.
Qed.

(** X6. A request whose email is the email of no row of [students] creates
    the student: the answer is the new row, with the request's name, email,
    interests and grades, and [students] gains exactly this row. *)
Theorem create_student_new_email student st :
  (forall s, In s (students st) -> s_email s <> sp_email student) ->
  exists row,
    create_student new_id student st
      = (inr row,
         mkState (students st ++ [row]) (programs st) (recommendations st)
                 (feedback st) (recommender_engine st)) /\
    s_name row = sp_name student /\ s_email row = sp_email student /\
    s_interests row = sp_interests student /\ s_grades row = sp_grades student.
Proof.
  intros Hnew.
  unfold create_student, handle, create_student_body, bind,
    select_students_by_email, gets, raise, insert_student.
  rewrite filter_none.
  - eexists. split; [reflexivity|]. repeat split; reflexivity.
  - intros s Hs. apply String.eqb_neq. apply Hnew; assumption.
Qed.

(** X7. Creating the same email twice: once a student was created, any
    further request with that email is answered with status 400 and changes
    nothing. *)
Theorem create_student_twice student other st row st' :
  create_student new_id student st = (inr row, st') ->
  sp_email other = sp_email student ->
  create_student new_id other st'
    = (inl (mkHTTPException 400 (Text "Student with this email already exists")),
       st').
Proof.
  intros Hcreate Hmail.
  apply create_student_ok in Hcreate. destruct Hcreate as [_ [Hrow Hst']].
  destruct (filter_In_cons (fun s => String.eqb (s_email s) (sp_email other))
              row (students st')) as [found [others Hsel]].
  { subst st'. simpl. apply in_or_app. right; left; reflexivity. }
  { subst row. simpl. rewrite Hmail. apply String.eqb_refl. }
  unfold create_student, handle, create_student_body, bind,
    select_students_by_email, gets, raise.
  rewrite Hsel. reflexivity.
Qed.

(** X8. A student that was just created is found by [get_student] under the
    identifier of the answer, provided the datastore gave it an identifier
    no earlier row has. *)
Theorem create_student_then_get_student student st row st' :
  create_student new_id student st = (inr row, st') ->
  (forall s, In s (students st) -> s_id s <> s_id row) ->
  get_student (s_id row) st' = (inr row, st').
Proof.
  intros Hcreate Hfresh.
  apply create_student_ok in Hcreate. destruct Hcreate as [_ [_ Hst']].
  unfold get_student, handle, get_student_body, bind, select_students_by_id,
    gets, ret, raise.
  subst st'. simpl. rewrite filter_app, filter_none.
  - simpl. rewrite String.eqb_refl. reflexivity.
  - intros s Hs. apply String.eqb_neq. apply Hfresh; assumption.
Qed.

(** [get_student] only reads. *)
Lemma get_student_reads sid st : snd (get_student sid st) = st.
Proof.
  unfold get_student, handle, get_student_body, bind, select_students_by_id,
    gets, ret, raise.
  destruct (filter _ (students st)); reflexivity.
Qed.

(** Updating rows none of which has the identifier changes no row. *)
Lemma update_no_match (f : Student -> Student) sid (l : list Student) :
  (forall s, In s l -> s_id s <> sid) ->
  map (fun s => if String.eqb (s_id s) sid then f s else s) l = l.
Proof.
  induction l as [|x l IH]; simpl; intros H; [reflexivity|].
  assert (Hx : String.eqb (s_id x) sid = false)
    by (apply String.eqb_neq, H; left; reflexivity).
  rewrite Hx, IH; [reflexivity|]. intros s Hs. apply H. right; assumption.
Qed.

(** An update keeps the identifier and the email of every row. *)
Lemma update_keeps_ids d sid (l : list Student) :
  map s_id (map (fun s => if String.eqb (s_id s) sid then apply_update d s else s) l)
  = map s_id l.
Proof.
  induction l as [|x l IH]; simpl; [reflexivity|].
  rewrite IH. destruct (String.eqb (s_id x) sid); reflexivity.
Qed.

Lemma update_keeps_emails d sid (l : list Student) :
  map s_email (map (fun s => if String.eqb (s_id s) sid then apply_update d s else s) l)
  = map s_email l.
Proof.
  induction l as [|x l IH]; simpl; [reflexivity|].
  rewrite IH. destruct (String.eqb (s_id x) sid); reflexivity.
Qed.

(** The rows an update returns are the updated versions of the rows that
    had the identifier. *)
Lemma update_result d sid (l : list Student) :
  filter (fun s => String.eqb (s_id s) sid)
         (map (fun s => if String.eqb (s_id s) sid then apply_update d s else s) l)
  = map (apply_update d) (filter (fun s => String.eqb (s_id s) sid) l).
Proof.
  induction l as [|x l IH]; simpl; [reflexivity|].
  destruct (String.eqb (s_id x) sid) eqn:Hx; simpl; rewrite ?Hx, IH; reflexivity.
Qed.

(** [update_student] on a request that sets no field. *)
Lemma update_student_no_fields sid student_update st :
  is_empty_dict (mkUpdateData (su_name student_update) (su_interests student_update)
                              (su_grades student_update) None) = true ->
  update_student sid student_update st
    = (inl (mkHTTPException 400 (Text "No fields to update")), st).
Proof.
  intros Hempty.
  unfold update_student, handle, update_student_body. cbv zeta.
  rewrite Hempty. reflexivity.
Qed.

(** [update_student] on a request that sets a field: the outcome is decided
    by the rows of [students] that have the identifier. *)
Lemma update_student_with_fields sid student_update st :
  is_empty_dict (mkUpdateData (su_name student_update) (su_interests student_update)
                              (su_grades student_update) None) = false ->
  update_student sid student_update st
    = match filter (fun s => String.eqb (s_id s) sid) (students st) with
      | [] => (inl (mkHTTPException 404 (Text "Student not found")), st)
      | old :: _ =>
          let d := mkUpdateData (su_name student_update) (su_interests student_update)
                                (su_grades student_update) (Some "now()") in
          (inr (apply_update d old),
           mkState (map (fun s => if String.eqb (s_id s) sid
                                  then apply_update d s else s) (students st))
                   (programs st) (recommendations st) (feedback st)
                   (recommender_engine st))
      end.
Proof.
  intros Hfields.
  unfold update_student, handle, update_student_body. cbv zeta.
  rewrite Hfields. unfold bind, update_students_by_id, raise, ret. simpl.
  rewrite update_result.
  destruct (filter (fun s => String.eqb (s_id s) sid) (students st))
    as [|old others] eqn:Hsel; simpl; [|reflexivity].
  rewrite update_no_match; [destruct st; reflexivity|].
  intros s Hs Heq.
  assert (Hin : In s (filter (fun s => String.eqb (s_id s) sid) (students st))).
  { apply filter_In. split; [assumption|]. rewrite Heq. apply String.eqb_refl. }
  rewrite Hsel in Hin. destruct Hin.
Qed.

Lemma filter_nil_none sid (l : list Student) :
  filter (fun s => String.eqb (s_id s) sid) l = [] ->
  forall s, In s l -> s_id s <> sid.
Proof.
  intros Hsel s Hs Heq.
  assert (Hin : In s (filter (fun s => String.eqb (s_id s) sid) l)).
  { apply filter_In. split; [assumption|]. rewrite Heq. apply String.eqb_refl. }
  rewrite Hsel in Hin. destruct Hin.
Qed.

(** X9. A rejected update changes nothing, and it is rejected for one of two
    reasons: status 400 when the request sets no field (whether or not the
    student exists), status 404 when it sets a field and no row of
    [students] has the identifier. *)
Theorem update_student_rejected sid student_update st h st' :
  update_student sid student_update st = (inl h, st') ->
  st' = st /\
  ( (h = mkHTTPException 400 (Text "No fields to update") /\
     su_name student_update = None /\ su_interests student_update = None /\
     su_grades student_update = None)
    \/
    (h = mkHTTPException 404 (Text "Student not found") /\
     (su_name student_update <> None \/ su_interests student_update <> None \/
      su_grades student_update <> None) /\
     (forall s, In s (students st) -> s_id s <> sid)) ).
Proof.
  destruct (is_empty_dict
              (mkUpdateData (su_name student_update) (su_interests student_update)
                            (su_grades student_update) None)) eqn:Hempty.
  - rewrite update_student_no_fields by assumption.
    intros H; inversion H; subst; clear H.
    split; [reflexivity|]. left. split; [reflexivity|].
    unfold is_empty_dict in Hempty; simpl in Hempty.
    destruct (su_name student_update); [discriminate|].
    destruct (su_interests student_update); [discriminate|].
    destruct (su_grades student_update); [discriminate|].
    repeat split; reflexivity.
  - rewrite update_student_with_fields by assumption.
    destruct (filter (fun s => String.eqb (s_id s) sid) (students st))
      as [|old others] eqn:Hsel; [|discriminate].
    intros H; inversion H; subst; clear H.
    split; [reflexivity|]. right. split; [reflexivity|]. split.
    + unfold is_empty_dict in Hempty; simpl in Hempty.
      destruct (su_name student_update); [left; discriminate|].
      destruct (su_interests student_update); [right; left; discriminate|].
      destruct (su_grades student_update); [right; right; discriminate|].
      discriminate.
    + apply filter_nil_none; assumption.
Qed.

(** X10. A successful update answers with the first row that has the
    identifier, in which the fields the request sets are replaced and the
    others, the identifier and the email included, are kept.  In [students]
    no row is added or removed and no identifier or email changes; the other
    tables are as before. *)
Theorem update_student_applied sid student_update st row st' :
  update_student sid student_update st = (inr row, st') ->
  (exists old others,
     filter (fun s => String.eqb (s_id s) sid) (students st) = old :: others /\
     s_id row = sid /\ s_email row = s_email old /\
     s_name row = get_default (su_name student_update) (s_name old) /\
     s_interests row = get_default (su_interests student_update) (s_interests old) /\
     s_grades row = get_default (su_grades student_update) (s_grades old)) /\
  map s_id (students st') = map s_id (students st) /\
  map s_email (students st') = map s_email (students st) /\
  programs st' = programs st /\ recommendations st' = recommendations st /\
  feedback st' = feedback st /\ recommender_engine st' = recommender_engine st.
Proof.
  destruct (is_empty_dict
              (mkUpdateData (su_name student_update) (su_interests student_update)
                            (su_grades student_update) None)) eqn:Hempty.
  - rewrite update_student_no_fields by assumption. discriminate.
  - rewrite update_student_with_fields by assumption.
    destruct (filter (fun s => String.eqb (s_id s) sid) (students st))
      as [|old others] eqn:Hsel; [discriminate|].
    cbv zeta. intros H; inversion H; subst; clear H. simpl.
    split.
    + exists old, others. split; [reflexivity|].
      assert (Hin : In old (filter (fun s => String.eqb (s_id s) sid) (students st)))
        by (rewrite Hsel; left; reflexivity).
      apply filter_In in Hin. destruct Hin as [_ Hid]. apply String.eqb_eq in Hid.
      repeat split; assumption || reflexivity.
    + rewrite update_keeps_ids, update_keeps_emails. repeat split; reflexivity.
Qed.

(** X11. After a successful update, [get_student] under the same identifier
    answers with the very row the update returned. *)
Theorem update_student_then_get_student sid student_update st row st' :
  update_student sid student_update st = (inr row, st') ->
  get_student sid st' = (inr row, st').
Proof.
  destruct (is_empty_dict
              (mkUpdateData (su_name student_update) (su_interests student_update)
                            (su_grades student_update) None)) eqn:Hempty.
  - rewrite update_student_no_fields by assumption. discriminate.
  - rewrite update_student_with_fields by assumption.
    destruct (filter (fun s => String.eqb (s_id s) sid) (students st))
      as [|old others] eqn:Hsel; [discriminate|].
    cbv zeta. intros H; inversion H; subst; clear H.
    unfold get_student, handle, get_student_body, bind, select_students_by_id,
      gets, ret, raise. simpl.
    rewrite update_result, Hsel. reflexivity.
Qed.

(** Applying the same update twice is applying it once. *)
Lemma apply_update_twice d sid (l : list Student) :
  map (fun s => if String.eqb (s_id s) sid then apply_update d s else s)
      (map (fun s => if String.eqb (s_id s) sid then apply_update d s else s) l)
  = map (fun s => if String.eqb (s_id s) sid then apply_update d s else s) l.
Proof.
  rewrite map_map. apply map_ext. intros s.
  destruct (String.eqb (s_id s) sid) eqn:Hs; simpl; rewrite Hs; [|reflexivity].
  unfold apply_update; simpl.
  destruct (u_name d), (u_interests d), (u_grades d); reflexivity.
Qed.

(** Repeating a successful update gives the same row and leaves the same
    rows (the timestamp [updated_at] is not part of a row). *)
Lemma update_student_idempotent sid student_update st row st' :
  update_student sid student_update st = (inr row, st') ->
  update_student sid student_update st' = (inr row, st').
Proof.
  destruct (is_empty_dict
              (mkUpdateData (su_name student_update) (su_interests student_update)
                            (su_grades student_update) None)) eqn:Hempty.
  - rewrite update_student_no_fields by assumption. discriminate.
  - rewrite !update_student_with_fields by assumption.
    destruct (filter (fun s => String.eqb (s_id s) sid) (students st))
      as [|old others] eqn:Hsel; [discriminate|].
    cbv zeta. intros H; inversion H; subst; clear H. simpl.
    rewrite update_result, Hsel. simpl. rewrite apply_update_twice.
    f_equal. f_equal. unfold apply_update; simpl.
    destruct (su_name student_update), (su_interests student_update),
      (su_grades student_update); reflexivity.
Qed.

End StudentProperties.

(** * Properties of the feedback and history endpoints *)

Section FeedbackProperties.

Context {engine_class : RecommenderEngine}.
Context {response_model : ResponseModel}.

(** The state [submit_feedback] leaves: the one it found, or that state with
    one more row of [feedback], whose rating is absent or between 1 and 5. *)
Lemma submit_feedback_state sid fb st :
  snd (submit_feedback sid fb st) = st \/
  exists row,
    rating_in_range row /\
    snd (submit_feedback sid fb st)
      = mkState (students st) (programs st) (recommendations st)
                (feedback st ++ [row]) (recommender_engine st).
Proof.
  unfold submit_feedback, handle, submit_feedback_body, bind, insert_feedback,
    raise, ret.
  destruct (fb_rating fb) as [r|].
  - destruct (Z.ltb_spec r 1); simpl; [left; reflexivity|].
    destruct (Z.ltb_spec 5 r); simpl; [left; reflexivity|].
    right. eexists. split; [|reflexivity]. unfold rating_in_range; simpl. lia.
  - simpl. right. eexists. split; [|reflexivity]. exact I.
Qed.

(** X12. A feedback submission without rating, or with a rating between 1
    and 5, is stored: the answer is the stored row, which carries the
    student identifier of the call and the submission's program identifier,
    flags and rating, and [feedback] gains exactly this row. *)
Theorem submit_feedback_accepted sid fb st :
  (forall r, fb_rating fb = Some r -> (1 <= r <= 5)%Z) ->
  submit_feedback sid fb st
    = (inr (mkFeedbackRow sid (fb_program_id fb) (fb_clicked fb)
                          (fb_accepted fb) (fb_rating fb)),
       mkState (students st) (programs st) (recommendations st)
               (feedback st
                ++ [mkFeedbackRow sid (fb_program_id fb) (fb_clicked fb)
                                  (fb_accepted fb) (fb_rating fb)])
               (recommender_engine st)).
Proof.
  intros Hok.
  unfold submit_feedback, handle, submit_feedback_body, bind, insert_feedback,
    raise, ret.
  destruct (fb_rating fb) as [r|]; [|reflexivity].
  specialize (Hok r eq_refl).
  destruct (Z.ltb_spec r 1); [lia|]. destruct (Z.ltb_spec 5 r); [lia|].
  reflexivity.
Qed.

Lemma filter_all {A} (f : A -> bool) (l : list A) :
  Forall (fun x => f x = true) l -> filter f l = l.
Proof.
  induction 1 as [|x l Hx _ IH]; simpl; [reflexivity|].
  rewrite Hx, IH. reflexivity.
Qed.

(** X13. [get_student_recommendations] never fails and only reads: it
    answers with at most 10 rows, each a row of [recommendations] with the
    asked [student_id], paired with the program of the catalog its
    [program_id] names, if any. *)
Theorem get_student_recommendations_bounded sid st :
  exists listed,
    get_student_recommendations sid st = (inr listed, st) /\
    (List.length listed <= 10)%nat /\
    Forall (fun rp => In (fst rp) (recommendations st) /\
                      r_student_id (fst rp) = sid /\
                      snd rp = program_of (programs st) (fst rp)) listed.
Proof.
  unfold get_student_recommendations, handle_exception.
  eexists. split; [reflexivity|]. split; [apply firstn_le_length|].
  apply Forall_forall. intros rp Hrp.
  apply firstn_incl in Hrp. apply in_rev in Hrp.
  apply in_map_iff in Hrp. destruct Hrp as [row [Heq Hrow]]. subst rp. simpl.
  apply filter_In in Hrow. destruct Hrow as [Hin Hsid].
  apply String.eqb_eq in Hsid. repeat split; assumption.
Qed.

(** X14. What [get_recommendations] returned is what the history shows
    first: after a successful call with at most 10 results,
    [get_student_recommendations] for that student lists the rows of these
    results before any older row, the last result first. *)
Theorem get_recommendations_then_history request st response st' :
  get_recommendations request st = (inr response, st') ->
  (List.length response <= 10)%nat ->
  exists listed,
    get_student_recommendations (student_id request) st' = (inr listed, st') /\
    Forall2 (persisted_as request)
            (rev (map fst (firstn (List.length response) listed))) response.
Proof.
  intros Hcall Hlen. apply get_recommendations_ok in Hcall.
  destruct Hcall as [student_data [others [items [rows H]]]].
  destruct H as [_ [_ [_ [Hrows [_ [Hprog [_ Hrecs]]]]]]].
  unfold get_student_recommendations, handle_exception.
  eexists. split; [reflexivity|].
  assert (Hn : List.length rows = List.length response)
    by (eapply Forall2_length; eassumption).
  assert (Hmine : Forall (fun row => String.eqb (r_student_id row)
                                       (student_id request) = true) rows).
  { clear - Hrows. induction Hrows as [|row r rows response Hr _ IH];
      constructor; [|assumption].
    destruct Hr as [Hsid _]. rewrite Hsid. apply String.eqb_refl. }
  rewrite Hrecs, filter_app, (filter_all _ Hmine), map_app, rev_app_distr.
  rewrite firstn_firstn, Nat.min_l by assumption.
  rewrite firstn_app, length_rev, length_map, Hn, Nat.sub_diag. simpl.
  rewrite app_nil_r, firstn_all2 by (rewrite length_rev, length_map; lia).
  rewrite map_rev, map_map. simpl. rewrite map_id, rev_involutive.
  assumption.
Qed.

End FeedbackProperties.

(** * Invariants of the service, over every sequence of calls *)

Section ServiceInvariants.

Context {engine_class : RecommenderEngine}.
Context {response_model : ResponseModel}.
Variable new_id : nat -> string.

(** [startup_event] changes no table. *)
Lemma startup_event_tables st : same_tables (snd (startup_event st)) st.
Proof.
  unfold startup_event, bind, select_programs, gets, ret, engine_fit, same_tables.
  destruct (programs st) as [|p catalog] eqn:Hcat; simpl.
  - repeat split; congruence.
  - destruct (fit (p :: catalog)); simpl; repeat split; congruence.
Qed.

(** The answer of [get_recommendations] is read off the tables alone. *)
Lemma get_recommendations_tables_only request st1 st2 :
  same_tables st1 st2 ->
  fst (get_recommendations request st1) = fst (get_recommendations request st2).
Proof.
  destruct st1 as [s1 p1 r1 f1 e1], st2 as [s2 p2 r2 f2 e2].
  unfold same_tables; simpl. intros [Hs [Hp [Hr Hf]]]; subst.
  unfold get_recommendations, handle, get_recommendations_body, bind,
    select_students_by_id, select_programs, gets, engine_fit, engine_recommend,
    ret, raise. simpl.
  destruct (filter _ s2) as [|student_data others]; [reflexivity|].
  destruct p2 as [|p catalog]; [reflexivity|]. simpl.
  destruct (fit (p :: catalog)) as [e|index]; reflexivity.
Qed.

(** The state [create_student] leaves: the one it found, or that state with
    one more row of [students], whose email no earlier row has. *)
Lemma create_student_state student st :
  snd (create_student new_id student st) = st \/
  exists row,
    (forall s, In s (students st) -> s_email s <> s_email row) /\
    snd (create_student new_id student st)
      = mkState (students st ++ [row]) (programs st) (recommendations st)
                (feedback st) (recommender_engine st).
Proof.
  destruct (create_student new_id student st) as [[h|row] st'] eqn:Hcall.
  - left. revert Hcall.
    unfold create_student, handle, create_student_body, bind,
      select_students_by_email, gets, raise, insert_student.
    destruct (filter _ (students st)); [discriminate|].
    intros H; inversion H; reflexivity.
  - right. apply create_student_ok in Hcall.
    destruct Hcall as [Hnew [Hrow Hst']].
    exists row. split; [|assumption].
    intros s Hs. rewrite Hrow. simpl. apply Hnew; assumption.
Qed.

(** The state [update_student] leaves: the one it found, or that state with
    the rows of one identifier updated. *)
Lemma update_student_state sid student_update st :
  snd (update_student sid student_update st) = st \/
  exists d,
    snd (update_student sid student_update st)
      = mkState (map (fun s => if String.eqb (s_id s) sid
                               then apply_update d s else s) (students st))
                (programs st) (recommendations st) (feedback st)
                (recommender_engine st).
Proof.
  destruct (is_empty_dict
              (mkUpdateData (su_name student_update) (su_interests student_update)
                            (su_grades student_update) None)) eqn:Hempty.
  - rewrite update_student_no_fields by assumption. left; reflexivity.
  - rewrite update_student_with_fields by assumption.
    destruct (filter (fun s => String.eqb (s_id s) sid) (students st));
      [left; reflexivity|].
    right. eexists. reflexivity.
Qed.

(** What one call can do to the tables. *)
Lemma step_frame st c :
  programs (step new_id st c) = programs st /\
  (exists ids,
     map s_id (students (step new_id st c)) = map s_id (students st) ++ ids) /\
  (exists rows,
     recommendations (step new_id st c) = recommendations st ++ rows) /\
  (exists rows,
     feedback (step new_id st c) = feedback st ++ rows /\
     Forall rating_in_range rows) /\
  (NoDup (map s_email (students st)) ->
   NoDup (map s_email (students (step new_id st c)))).
Proof.
  assert (Hsame : forall st' : State,
    students st' = students st -> programs st' = programs st ->
    feedback st' = feedback st ->
    (exists rows, recommendations st' = recommendations st ++ rows) ->
    programs st' = programs st /\
    (exists ids, map s_id (students st') = map s_id (students st) ++ ids) /\
    (exists rows, recommendations st' = recommendations st ++ rows) /\
    (exists rows, feedback st' = feedback st ++ rows /\
                  Forall rating_in_range rows) /\
    (NoDup (map s_email (students st)) -> NoDup (map s_email (students st')))).
  { intros st' Hs Hp Hf Hr. rewrite Hs, Hf. split; [assumption|].
    split; [exists (@nil _); rewrite app_nil_r; reflexivity|].
    split; [assumption|].
    split; [exists (@nil _); rewrite app_nil_r; split; [reflexivity|constructor]|].
    trivial. }
  assert (Hnone : forall st' : State, st' = st ->
    programs st' = programs st /\
    (exists ids, map s_id (students st') = map s_id (students st) ++ ids) /\
    (exists rows, recommendations st' = recommendations st ++ rows) /\
    (exists rows, feedback st' = feedback st ++ rows /\
                  Forall rating_in_range rows) /\
    (NoDup (map s_email (students st)) -> NoDup (map s_email (students st')))).
  { intros st' ->. apply Hsame; try reflexivity.
    exists (@nil _); rewrite app_nil_r; reflexivity. }
  destruct c as [| |student|sid|sid student_update|request|sid fb|sid]; simpl.
  - destruct (startup_event_tables st) as [Hs [Hp [Hr Hf]]].
    apply Hsame; try assumption.
    exists (@nil _); rewrite app_nil_r; assumption.
  - apply Hnone. reflexivity.
  - destruct (create_student_state student st) as [Hst|[row [Hnew Hst]]].
    + apply Hnone; assumption.
    + rewrite Hst. simpl. split; [reflexivity|].
      split; [exists [s_id row]; rewrite map_app; reflexivity|].
      split; [exists (@nil _); rewrite app_nil_r; reflexivity|].
      split; [exists (@nil _); rewrite app_nil_r; split; [reflexivity|constructor]|].
      intros Hnd. rewrite map_app. simpl. apply NoDup_snoc; [assumption|].
      intros Hin. apply in_map_iff in Hin. destruct Hin as [s [Heq Hs]].
      apply (Hnew s Hs). assumption.
  - apply Hnone. apply get_student_reads.
  - destruct (update_student_state sid student_update st) as [Hst|[d Hst]].
    + apply Hnone; assumption.
    + rewrite Hst. simpl. rewrite update_keeps_ids, update_keeps_emails.
      split; [reflexivity|].
      split; [exists (@nil _); rewrite app_nil_r; reflexivity|].
      split; [exists (@nil _); rewrite app_nil_r; reflexivity|].
      split; [exists (@nil _); rewrite app_nil_r; split; [reflexivity|constructor]|].
      trivial.
  - destruct (get_recommendations_frame request st)
      as [Hs [Hp [Hf [rows [Hr _]]]]].
    apply Hsame; try assumption. exists rows; assumption.
  - destruct (submit_feedback_state sid fb st) as [Hst|[row [Hrange Hst]]].
    + apply Hnone; assumption.
    + rewrite Hst. simpl. split; [reflexivity|].
      split; [exists (@nil _); rewrite app_nil_r; reflexivity|].
      split; [exists (@nil _); rewrite app_nil_r; reflexivity|].
      split; [exists [row]; split; [reflexivity|repeat constructor; assumption]|].
      trivial.
  - apply Hnone. reflexivity.
Qed.

(** X15. No call writes the catalog: after any sequence of calls of the
    endpoints and of the startup event, [programs] is what it was. *)
Theorem run_keeps_programs calls :
  forall st, programs (run new_id calls st) = programs st.
Proof.
  induction calls as [|c calls IH]; intros st; [reflexivity|].
  unfold run in *. simpl. rewrite IH.
  apply (proj1 (step_frame st c)).
Qed.

(** X16. No sequence of calls gives two students the same email: when the
    emails of [students] are pairwise distinct, they still are after any
    sequence of calls. *)
Theorem run_keeps_emails_distinct calls :
  forall st,
    NoDup (map s_email (students st)) ->
    NoDup (map s_email (students (run new_id calls st))).
Proof.
  induction calls as [|c calls IH]; intros st Hnd; [assumption|].
  unfold run in *. simpl. apply IH.
  apply (proj2 (proj2 (proj2 (proj2 (step_frame st c))))). assumption.
Qed.

(** X17. No sequence of calls stores a rating outside 1..5: when every
    rating of [feedback] is absent or between 1 and 5, this still holds after
    any sequence of calls. *)
Theorem run_keeps_ratings_in_range calls :
  forall st,
    Forall rating_in_range (feedback st) ->
    Forall rating_in_range (feedback (run new_id calls st)).
Proof.
  induction calls as [|c calls IH]; intros st Hall; [assumption|].
  unfold run in *. simpl. apply IH.
  destruct (proj1 (proj2 (proj2 (proj2 (step_frame st c)))))
    as [rows [Hrows Hrange]].
  rewrite Hrows. apply Forall_app. split; assumption.
Qed.

(** X18. No call deletes or reorders: after any sequence of calls,
    [recommendations] and [feedback] are the tables before followed by new
    rows, and the identifiers of [students] are those before, in the same
    order, followed by new ones. *)
Theorem run_only_appends calls :
  forall st,
    (exists ids,
       map s_id (students (run new_id calls st)) = map s_id (students st) ++ ids) /\
    (exists rows,
       recommendations (run new_id calls st) = recommendations st ++ rows) /\
    (exists rows, feedback (run new_id calls st) = feedback st ++ rows).
Proof.
  induction calls as [|c calls IH]; intros st.
  - repeat split; exists (@nil _); rewrite app_nil_r; reflexivity.
  - unfold run in *. simpl.
    destruct (IH (step new_id st c)) as [[ids Hids] [[rs Hrs] [fs Hfs]]].
    destruct (step_frame st c) as [_ [[ids0 Hids0] [[rs0 Hrs0] [[fs0 [Hfs0 _]] _]]]].
    rewrite Hids, Hrs, Hfs, Hids0, Hrs0, Hfs0.
    split; [exists (ids0 ++ ids); rewrite app_assoc; reflexivity|].
    split; [exists (rs0 ++ rs); rewrite app_assoc; reflexivity|].
    exists (fs0 ++ fs); rewrite app_assoc; reflexivity.
Qed.

(** X19. The fit of the startup event is not needed for the answers: it
    changes no table, and [get_recommendations] answers after it as it would
    have without it. *)
Theorem startup_event_redundant request st :
  same_tables (snd (startup_event st)) st /\
  fst (get_recommendations request (snd (startup_event st)))
    = fst (get_recommendations request st).
Proof.
  split; [apply startup_event_tables|].
  apply get_recommendations_tables_only, startup_event_tables.
Qed.

End ServiceInvariants.

(** * The further properties at work on the sample data *)

Lemma get_recommendations_unknown_student_witness :
  get_recommendations Scenario.unknown_request Sample.state_one_program
    = (inl (mkHTTPException 404 (Text "Student not found")),
       Sample.state_one_program).
Proof.
  apply (@get_recommendations_unknown_student (tfidf_engine Sample.config) Sample.models
           Scenario.unknown_request Sample.state_one_program).
  intros s [Hs|[]]. subst s. discriminate.
Defined.

Lemma get_recommendations_engine_failure_witness :
  ranking (engine_class := tfidf_engine Sample.config)
          (programs Scenario.state_duplicate) Sample.student 5
    = inl ConflictError /\
  fst (get_recommendations Sample.request Scenario.state_duplicate)
    = inl (mkHTTPException 500 (Str (EngineException ConflictError))) /\
  same_tables (snd (get_recommendations Sample.request Scenario.state_duplicate))
              Scenario.state_duplicate.
Proof.
  split; [reflexivity|].
  apply (@get_recommendations_engine_failure (tfidf_engine Sample.config) Sample.models
           Sample.request Scenario.state_duplicate Sample.student []
           ConflictError).
  - reflexivity.
  - reflexivity.
Defined.

Lemma get_recommendations_complete_ranking_witness :
  ranking (engine_class := tfidf_engine Sample.config)
          (programs Sample.state_one_program) Sample.student 5
    = inr Scenario.items_one /\
  List.length Scenario.items_one = 1%nat /\
  map tags (map (recommendation_of (engine_class := tfidf_engine Sample.config))
                Scenario.items_one) = [Some ["data"; "python"]] /\
  fst (get_recommendations Sample.request Sample.state_one_program)
    = inr (map (recommendation_of (engine_class := tfidf_engine Sample.config))
               Scenario.items_one) /\
  recommendations (snd (get_recommendations Sample.request Sample.state_one_program))
    = recommendations Sample.state_one_program
      ++ map (row_of (engine_class := tfidf_engine Sample.config) Sample.request)
             Scenario.items_one.
Proof.
  split; [reflexivity|]. split; [reflexivity|]. split; [reflexivity|].
  apply (@get_recommendations_complete_ranking (tfidf_engine Sample.config)
           Sample.models Sample.request Sample.state_one_program
           Sample.student [] Scenario.items_one).
  - reflexivity.
  - reflexivity.
  - reflexivity.
Defined.

Lemma get_recommendations_incomplete_program_witness :
  ranking (engine_class := tfidf_engine Sample.config)
          (programs Scenario.state_null_tags) Sample.student 5
    = inr [Scenario.item_null_tags] /\
  p_tags (fst (fst Scenario.item_null_tags)) = Some None /\
  is_renderable (response_model := Sample.models) Scenario.item_null_tags = false /\
  fst (get_recommendations Sample.request Scenario.state_null_tags)
    = inl (mkHTTPException 500 (Str ModelValidationError)) /\
  recommendations (snd (get_recommendations Sample.request Scenario.state_null_tags))
    = [row_of (engine_class := tfidf_engine Sample.config) Sample.request
              Scenario.item_null_tags].
Proof.
  split; [reflexivity|]. split; [reflexivity|]. split; [reflexivity|].
  apply (@get_recommendations_incomplete_program (tfidf_engine Sample.config)
           Sample.models Sample.request Scenario.state_null_tags
           Sample.student [] [] Scenario.item_null_tags []).
  - reflexivity.
  - reflexivity.
  - reflexivity.
  - reflexivity.
Defined.

Lemma create_student_new_email_witness :
  exists row,
    create_student Sample.new_id Scenario.bob Sample.state_one_program
      = (inr row,
         mkState (students Sample.state_one_program ++ [row])
                 (programs Sample.state_one_program)
                 (recommendations Sample.state_one_program)
                 (feedback Sample.state_one_program)
                 (recommender_engine Sample.state_one_program)) /\
    s_name row = "Bob" /\ s_email row = "bob@example.org" /\
    s_interests row = ["art"] /\ s_grades row = [].
Proof.
  apply (@create_student_new_email (tfidf_engine Sample.config) Sample.new_id
           Scenario.bob Sample.state_one_program).
  intros s [Hs|[]]. subst s. discriminate.
Defined.

Lemma create_student_twice_witness :
  create_student Sample.new_id Scenario.bob Sample.state_one_program
    = (inr Scenario.bob_row, Scenario.state_with_bob) /\
  create_student Sample.new_id Scenario.bob Scenario.state_with_bob
    = (inl (mkHTTPException 400 (Text "Student with this email already exists")),
       Scenario.state_with_bob).
Proof.
  split; [reflexivity|].
  apply (@create_student_twice (tfidf_engine Sample.config) Sample.new_id
           Scenario.bob Scenario.bob Sample.state_one_program
           Scenario.bob_row Scenario.state_with_bob).
  - reflexivity.
  - reflexivity.
Defined.

Lemma create_student_then_get_student_witness :
  create_student Sample.new_id Scenario.bob Sample.state_one_program
    = (inr Scenario.bob_row, Scenario.state_with_bob) /\
  get_student (s_id Scenario.bob_row) Scenario.state_with_bob
    = (inr Scenario.bob_row, Scenario.state_with_bob).
Proof.
  split; [reflexivity|].
  apply (@create_student_then_get_student (tfidf_engine Sample.config)
           Sample.new_id Scenario.bob Sample.state_one_program
           Scenario.bob_row Scenario.state_with_bob).
  - reflexivity.
  - intros s [Hs|[]]. subst s. discriminate.
Defined.

Lemma update_student_rejected_witness :
  update_student "s1" Scenario.no_update Sample.state_one_program
    = (inl (mkHTTPException 400 (Text "No fields to update")),
       Sample.state_one_program) /\
  su_name Scenario.no_update = None /\
  su_interests Scenario.no_update = None /\
  su_grades Scenario.no_update = None.
Proof.
  split; [reflexivity|].
  destruct (@update_student_rejected (tfidf_engine Sample.config) "s1"
              Scenario.no_update Sample.state_one_program
              (mkHTTPException 400 (Text "No fields to update"))
              Sample.state_one_program eq_refl) as [_ [[_ H]|[H _]]].
  - exact H.
  - discriminate H.
Defined.

Lemma update_student_applied_witness :
  update_student "s1" Scenario.rename Sample.state_one_program
    = (inr Scenario.renamed_row, Scenario.state_renamed) /\
  map s_email (students Scenario.state_renamed)
    = map s_email (students Sample.state_one_program).
Proof.
  split; [reflexivity|].
  apply (@update_student_applied (tfidf_engine Sample.config) "s1"
           Scenario.rename Sample.state_one_program Scenario.renamed_row
           Scenario.state_renamed).
  reflexivity.
Defined.

Lemma update_student_then_get_student_witness :
  update_student "s1" Scenario.rename Sample.state_one_program
    = (inr Scenario.renamed_row, Scenario.state_renamed) /\
  get_student "s1" Scenario.state_renamed
    = (inr Scenario.renamed_row, Scenario.state_renamed).
Proof.
  split; [reflexivity|].
  apply (@update_student_then_get_student (tfidf_engine Sample.config) "s1"
           Scenario.rename Sample.state_one_program Scenario.renamed_row
           Scenario.state_renamed).
  reflexivity.
Defined.

Lemma update_student_idempotent_witness :
  update_student "s1" Scenario.rename Sample.state_one_program
    = (inr Scenario.renamed_row, Scenario.state_renamed) /\
  update_student "s1" Scenario.rename Scenario.state_renamed
    = (inr Scenario.renamed_row, Scenario.state_renamed).
Proof.
  split; [reflexivity|].
  apply (@update_student_idempotent (tfidf_engine Sample.config) "s1"
           Scenario.rename Sample.state_one_program Scenario.renamed_row
           Scenario.state_renamed).
  reflexivity.
Defined.

Lemma submit_feedback_accepted_witness :
  fst (submit_feedback "s1" Scenario.feedback_rating_4 Sample.state_one_program)
    = inr (mkFeedbackRow "s1" "p1" true true (Some 4%Z)).
Proof.
  rewrite (@submit_feedback_accepted (tfidf_engine Sample.config) "s1"
             Scenario.feedback_rating_4 Sample.state_one_program).
  - reflexivity.
  - intros r Hr. inversion Hr. lia.
Defined.

Lemma get_recommendations_then_history_witness :
  get_recommendations Sample.request Sample.state_one_program
    = (inr Sample.response_one, Sample.state_after_one) /\
  (List.length Sample.response_one <= 10)%nat /\
  exists listed,
    get_student_recommendations (student_id Sample.request) Sample.state_after_one
      = (inr listed, Sample.state_after_one) /\
    Forall2 (persisted_as Sample.request)
            (rev (map fst (firstn (List.length Sample.response_one) listed)))
            Sample.response_one.
Proof.
  split; [reflexivity|].
  split; [apply Nat.leb_le; reflexivity|].
  apply (@get_recommendations_then_history (tfidf_engine Sample.config) Sample.models
           Sample.request Sample.state_one_program Sample.response_one
           Sample.state_after_one).
  - reflexivity.
  - apply Nat.leb_le; reflexivity.
Defined.

Lemma run_keeps_emails_distinct_witness :
  NoDup (map s_email (students Sample.state_one_program)) /\
  NoDup (map s_email
           (students (run Sample.new_id Scenario.calls Sample.state_one_program))).
Proof.
  assert (Hnd : NoDup (map s_email (students Sample.state_one_program)))
    by (simpl; repeat constructor; intros []).
  split; [exact Hnd|].
  apply (@run_keeps_emails_distinct (tfidf_engine Sample.config) Sample.models Sample.new_id
           Scenario.calls Sample.state_one_program Hnd).
Defined.

Lemma run_keeps_ratings_in_range_witness :
  Forall rating_in_range (feedback Sample.state_one_program) /\
  Forall rating_in_range
         (feedback (run Sample.new_id Scenario.calls Sample.state_one_program)).
Proof.
  split; [constructor|].
  apply (@run_keeps_ratings_in_range (tfidf_engine Sample.config) Sample.models Sample.new_id
           Scenario.calls Sample.state_one_program).
  constructor.
Defined.

(** A program without the key [name]: the call is answered 500 for the
    [KeyError], after the row of the program was inserted. *)
Lemma get_recommendations_nameless_program :
  fst (get_recommendations Sample.request Scenario.state_nameless)
    = inl (mkHTTPException 500 (Str (KeyError "name"))) /\
  map r_program_id
      (recommendations (snd (get_recommendations Sample.request Scenario.state_nameless)))
    = ["p3"].
Proof. split; reflexivity. Qed.
